(** * Pest-risk engine of CropAI ([pest_risk.py]) as a shallow embedding

    Python [float] is IEEE 754 binary64 and is modelled by Rocq's primitive
    [float], so every sum, product and comparison below rounds exactly as the
    interpreter does.  A decimal literal such as [0.4] denotes, in both
    languages, the binary64 value nearest to it.  The integer literals of the
    source ([15], [25], the initial score [0]) are compared and added to floats
    only, where Python converts them exactly; they are written as floats.
    The fields of a reading are floats, as [WeatherData] declares them; an
    integer that the weather service sends compares as the float of the same
    value does.

    A [Dict[str, float]] is an association list in insertion order (the
    iteration order of Python dictionaries); a [str] is a [string] of bytes,
    its non-ASCII characters being kept as their UTF-8 encoding. *)

From Stdlib Require Import Floats ZArith QArith Qminmax List String Ascii Bool Lia.
From Stdlib Require Import Permutation Sorted.
Import ListNotations.

Set Warnings "-inexact-float".

Local Open Scope string_scope.
Local Open Scope list_scope.
Local Open Scope float_scope.

(** ** The Python built-ins the engine relies on *)

Module Py.

Definition dict (V : Type) : Type := list (string * V).

Definition keys {V} (d : dict V) : list string := map fst d.
Definition values {V} (d : dict V) : list V := map snd d.
Definition items {V} (d : dict V) : list (string * V) := d.

Fixpoint get {V} (d : dict V) (k : string) : option V :=
  match d with
  | [] => None
  | (k', v) :: d' => if String.eqb k k' then Some v else get d' k
  end.

(** [d.get(k, default)] *)
Definition get_default {V} (d : dict V) (k : string) (default : V) : V :=
  match get d k with
  | Some v => v
  | None => default
  end.

(** [d[k] = v]: an existing key keeps its position, a new one is appended. *)
Fixpoint set {V} (d : dict V) (k : string) (v : V) : dict V :=
  match d with
  | [] => [(k, v)]
  | (k', v') :: d' =>
      if String.eqb k k' then (k', v) :: d' else (k', v') :: set d' k v
  end.

(** [dict.fromkeys(l)] followed by [list(...)]: the keys in first-seen order. *)
Definition fromkeys (l : list string) : list string :=
  fold_left (fun seen k => if existsb (String.eqb k) seen then seen else seen ++ [k]) l [].

(** [min(a, b)] keeps its first argument unless the second is smaller. *)
Definition min (a b : float) : float := if b <? a then b else a.

(** [max(iterable)]: the running maximum is replaced by a strictly greater
    item; an empty iterable raises [ValueError] ([None]). *)
Fixpoint max_from (current : float) (l : list float) : float :=
  match l with
  | [] => current
  | item :: rest => max_from (if current <? item then item else current) rest
  end.

Definition max (l : list float) : option float :=
  match l with
  | [] => None
  | first :: rest => Some (max_from first rest)
  end.

Definition sum (l : list float) : float := fold_left PrimFloat.add l 0.

Definition len {A} (l : list A) : float := PrimFloat.of_uint63 (Uint63.of_Z (Z.of_nat (List.length l))).

(** [sorted(l, key=key, reverse=True)].  The sort is stable: the result is
    in descending key order and items with equal keys keep their relative
    order.  For keys that are totally ordered (no NaN) that list is unique,
    and it is the one built here by stable insertion. *)
Fixpoint insert_desc {A} (key : A -> float) (x : A) (l : list A) : list A :=
  match l with
  | [] => [x]
  | y :: l' => if key x <? key y then y :: insert_desc key x l' else x :: y :: l'
  end.

Definition sorted_desc {A} (key : A -> float) (l : list A) : list A :=
  fold_right (insert_desc key) [] l.

(** ASCII letters; bytes above 127 are left alone. *)
Definition is_upper (c : ascii) : bool :=
  let n := N_of_ascii c in (65 <=? n)%N && (n <=? 90)%N.
Definition is_lower (c : ascii) : bool :=
  let n := N_of_ascii c in (97 <=? n)%N && (n <=? 122)%N.
Definition to_lower (c : ascii) : ascii :=
  if is_upper c then ascii_of_N (N_of_ascii c + 32) else c.
Definition to_upper (c : ascii) : ascii :=
  if is_lower c then ascii_of_N (N_of_ascii c - 32) else c.

(** [s.lower()] *)
Fixpoint lower (s : string) : string :=
  match s with
  | EmptyString => EmptyString
  | String c s' => String (to_lower c) (lower s')
  end.

(** [s.title()]: a letter that follows a letter is lowercased, any other
    letter is uppercased. *)
Fixpoint title_from (previous_is_cased : bool) (s : string) : string :=
  match s with
  | EmptyString => EmptyString
  | String c s' =>
      if is_upper c || is_lower c
      then String (if previous_is_cased then to_lower c else to_upper c) (title_from true s')
      else String c (title_from false s')
  end.

Definition title (s : string) : string := title_from false s.

(** Truth value of an optional string: [None] and [""] are false. *)
Definition truthy (s : option string) : bool :=
  match s with
  | Some (String _ _) => true
  | _ => false
  end.

(** *** Fixed-point formatting, [format(x, ".<d>f")]

    The decimal expansion of the exact binary value, rounded to [d] places
    half-to-even. *)
Definition digit (n : Z) : string := String (ascii_of_N (Z.to_N (48 + n))) EmptyString.

Fixpoint digits_fixed (width : nat) (n : Z) : string :=
  match width with
  | O => EmptyString
  | S width' => String.append (digits_fixed width' (n / 10)%Z) (digit (n mod 10)%Z)
  end.

Fixpoint digits_upto (fuel : nat) (n : Z) : string :=
  match fuel with
  | O => digit (n mod 10)%Z
  | S fuel' =>
      if (n <? 10)%Z then digit n
      else String.append (digits_upto fuel' (n / 10)%Z) (digit (n mod 10)%Z)
  end.

Definition digits (n : Z) : string := digits_upto (Z.to_nat (Z.log2 n)) n.

Definition round_half_even (num den : Z) : Z :=
  let q := (num / den)%Z in
  let r := (num mod den)%Z in
  if (2 * r <? den)%Z then q
  else if (den <? 2 * r)%Z then (q + 1)%Z
  else if Z.even q then q else (q + 1)%Z.

Definition render_fixed (places : nat) (negative : bool) (n : Z) : string :=
  let scale := (10 ^ Z.of_nat places)%Z in
  String.append (if negative then "-" else "")
    (String.append (digits (n / scale)%Z)
       (match places with
        | O => ""
        | S _ => String.append "." (digits_fixed places (n mod scale)%Z)
        end)).

Definition format_fixed (places : nat) (x : float) : string :=
  match Prim2SF x with
  | S754_nan => "nan"
  | S754_infinity s => if s then "-inf" else "inf"
  | S754_zero s => render_fixed places s 0%Z
  | S754_finite s m e =>
      let scale := (10 ^ Z.of_nat places)%Z in
      render_fixed places s
        (if (0 <=? e)%Z then (Z.pos m * 2 ^ e * scale)%Z
         else round_half_even (Z.pos m * scale) (2 ^ (- e)))
  end.

End Py.

(** ** Data model *)

(** [class WeatherData]; [timestamp] is kept as seconds since the epoch. *)
Record WeatherData : Type := mkWeatherData
  { temperature : float   (* Celsius *)
  ; humidity : float      (* Percentage *)
  ; rainfall : float      (* mm *)
  ; timestamp : Z }.

(** [class PestRiskAssessment] *)
Record PestRiskAssessment : Type := mkPestRiskAssessment
  { risk_level : string
  ; risk_color : string
  ; risk_emoji : string
  ; confidence : float
  ; primary_threats : list string
  ; recommendations : list string
  ; weather_summary : string
  ; detailed_analysis : Py.dict string }.

(** The dictionary returned by [_determine_overall_risk], with its four keys
    ['level'], ['color'], ['emoji'] and ['confidence']. *)
Record OverallRisk : Type := mkOverallRisk
  { level : string
  ; color : string
  ; emoji : string
  ; overall_confidence : float }.

(** ** [class PestRiskEngine] *)

Module PestRiskEngine.

(** What [requests.get] and the decoding of its reply can do.  [Raised]
    stands for any exception of the request itself (connection failure,
    timeout).  In [Replied code body], [body] is the decoded reply when
    [response.json()] and the look-ups of ['main']['temp'] and
    ['main']['humidity'] succeed, and [None] when one of them raises;
    [rain_1h] is [None] when the reply has no ['rain']['1h'] entry. *)
Record ApiBody : Type := mkApiBody
  { main_temp : float
  ; main_humidity : float
  ; rain_1h : option float }.

Inductive ApiOutcome : Type :=
| Raised
| Replied (status_code : Z) (body : option ApiBody).

(** The scenario table of [_generate_mock_weather]. *)
Definition scenarios (now : Z) : list WeatherData :=
  [ mkWeatherData 22.0 55.0 2.0 now     (* Low risk scenario *)
  ; mkWeatherData 28.0 68.0 8.0 now     (* Medium risk scenario *)
  ; mkWeatherData 34.0 82.0 18.0 now    (* High risk scenario *)
  ; mkWeatherData 26.0 45.0 0.0 now     (* Hot & dry *)
  ; mkWeatherData 18.0 85.0 15.0 now    (* Cool & wet *)
  ].

(** [random.choice(scenarios)]; [pick] is the random draw. *)
Definition _generate_mock_weather (now : Z) (pick : nat) : WeatherData :=
  nth (pick mod List.length (scenarios now)) (scenarios now) (mkWeatherData 22.0 55.0 2.0 now).

Definition get_weather_data (api_key : option string) (outcome : ApiOutcome)
    (now : Z) (pick : nat) : WeatherData :=
  if Py.truthy api_key then
    match outcome with
    | Raised => _generate_mock_weather now pick
    | Replied status_code body =>
        if (status_code =? 200)%Z then
          match body with
          | Some data =>
              mkWeatherData (main_temp data) (main_humidity data)
                (match rain_1h data with Some r => r | None => 0 end) now
          | None => _generate_mock_weather now pick
          end
        else _generate_mock_weather now pick
    end
  else _generate_mock_weather now pick.

Definition _calculate_individual_pest_risks (weather_data : WeatherData) : Py.dict float :=
  let risks : Py.dict float := [] in
  let temp := temperature weather_data in
  let humidity := humidity weather_data in
  let rainfall := rainfall weather_data in
  (* Aphids - thrive in moderate temps, high humidity, low rainfall *)
  let aphid_risk := 0 in
  let aphid_risk := if (15 <=? temp) && (temp <=? 25) then aphid_risk + 0.4 else aphid_risk in
  let aphid_risk := if 50 <? humidity then aphid_risk + 0.3 else aphid_risk in
  let aphid_risk := if rainfall <? 10 then aphid_risk + 0.3 else aphid_risk in
  let risks := Py.set risks "aphids" (Py.min aphid_risk 1.0) in
  (* Fungal diseases - love warmth, high humidity, moisture *)
  let fungal_risk := 0 in
  let fungal_risk := if (20 <=? temp) && (temp <=? 30) then fungal_risk + 0.3 else fungal_risk in
  let fungal_risk := if 70 <? humidity then fungal_risk + 0.4 else fungal_risk in
  let fungal_risk := if 5 <? rainfall then fungal_risk + 0.3 else fungal_risk in
  let risks := Py.set risks "fungal_diseases" (Py.min fungal_risk 1.0) in
  (* Spider mites - hot, dry conditions *)
  let mite_risk := 0 in
  let mite_risk := if 27 <? temp then mite_risk + 0.4 else mite_risk in
  let mite_risk := if humidity <? 40 then mite_risk + 0.3 else mite_risk in
  let mite_risk := if rainfall <? 2 then mite_risk + 0.3 else mite_risk in
  let risks := Py.set risks "spider_mites" (Py.min mite_risk 1.0) in
  (* Thrips - moderate conditions *)
  let thrip_risk := 0 in
  let thrip_risk := if (20 <=? temp) && (temp <=? 30) then thrip_risk + 0.3 else thrip_risk in
  let thrip_risk := if (40 <=? humidity) && (humidity <=? 70) then thrip_risk + 0.3 else thrip_risk in
  let thrip_risk := if rainfall <? 8 then thrip_risk + 0.4 else thrip_risk in
  let risks := Py.set risks "thrips" (Py.min thrip_risk 1.0) in
  (* Whiteflies - warm, humid conditions *)
  let whitefly_risk := 0 in
  let whitefly_risk := if (25 <=? temp) && (temp <=? 32) then whitefly_risk + 0.4 else whitefly_risk in
  let whitefly_risk := if 60 <? humidity then whitefly_risk + 0.3 else whitefly_risk in
  let whitefly_risk := if rainfall <? 12 then whitefly_risk + 0.3 else whitefly_risk in
  let risks := Py.set risks "whiteflies" (Py.min whitefly_risk 1.0) in
  risks.

(** Lines 204-207 of [_determine_overall_risk]: the extreme weather flags. *)
Definition temp_extreme (weather_data : WeatherData) : bool :=
  (35 <? temperature weather_data) || (temperature weather_data <? 5).
Definition humidity_extreme (weather_data : WeatherData) : bool :=
  (90 <? humidity weather_data) || (humidity weather_data <? 20).
Definition rainfall_extreme (weather_data : WeatherData) : bool :=
  25 <? rainfall weather_data.

(** Lines 201-210: [max_risk] as it stands when the level is chosen.
    [None] is the [ValueError] of [max] on an empty dictionary. *)
Definition escalated_max_risk (pest_risks : Py.dict float) (weather_data : WeatherData)
    : option float :=
  match Py.max (Py.values pest_risks) with
  | None => None
  | Some max_risk =>
      let avg_risk := Py.sum (Py.values pest_risks) / Py.len pest_risks in
      if temp_extreme weather_data || humidity_extreme weather_data
         || rainfall_extreme weather_data
      then Some (Py.min (max_risk + 0.2) 1.0)
      else Some max_risk
  end.

(** Lines 212-233: the level chosen for a given [max_risk]. *)
Definition risk_band (max_risk : float) : OverallRisk :=
  if 0.7 <=? max_risk then
    mkOverallRisk "High" "red" "ğŸ”´" (Py.min max_risk 0.95)
  else if 0.4 <=? max_risk then
    mkOverallRisk "Medium" "yellow" "ğŸŸ¡" (max_risk * 0.8)
  else
    mkOverallRisk "Low" "green" "ğŸŸ¢" (1 - max_risk).

Definition _determine_overall_risk (pest_risks : Py.dict float) (weather_data : WeatherData)
    : option OverallRisk :=
  option_map risk_band (escalated_max_risk pest_risks weather_data).

Definition threat_names : Py.dict string :=
  [ ("aphids", "Aphid Infestation")
  ; ("fungal_diseases", "Fungal Diseases")
  ; ("spider_mites", "Spider Mite Damage")
  ; ("thrips", "Thrips Damage")
  ; ("whiteflies", "Whitefly Infestation") ].

(** [threat_names.get(threat, threat.title())] *)
Definition display_name (threat : string) : string :=
  Py.get_default threat_names threat (Py.title threat).

Definition _identify_primary_threats (pest_risks : Py.dict float) : list string :=
  (* Sort pests by risk level *)
  let sorted_pests := Py.sorted_desc snd (Py.items pest_risks) in
  (* Get pests with significant risk (>0.3) *)
  let significant_threats :=
    map fst (filter (fun x => 0.3 <? snd x) sorted_pests) in
  (* Map to user-friendly names *)
  map display_name (firstn 3 significant_threats).

(** The [if]/[elif] chain inside the loop: the list the current pest adds to
    the recommendations, nothing for a key outside the five. *)
Definition pest_advice (pest : string) : list string :=
  if String.eqb pest "aphids" then
    [ "ğŸ› Scout for aphid colonies on new growth"
    ; "ğŸŒ¿ Apply insecticidal soap or neem oil spray"
    ; "ğŸ Release beneficial insects like ladybugs" ]
  else if String.eqb pest "fungal_diseases" then
    [ "ğŸ’¨ Improve air circulation between plants"
    ; "ğŸŒ¿ Apply preventive fungicide spray"
    ; "ğŸ’§ Avoid overhead watering - use drip irrigation" ]
  else if String.eqb pest "spider_mites" then
    [ "ğŸ’¦ Increase humidity around plants with misting"
    ; "ğŸ” Check undersides of leaves for fine webbing"
    ; "ğŸŒ¿ Apply miticide or predatory mite release" ]
  else if String.eqb pest "thrips" then
    [ "ğŸ’™ Use blue sticky traps to monitor populations"
    ; "ğŸŒ¿ Apply beneficial nematodes to soil"
    ; "ğŸ’¨ Remove weeds that harbor thrips" ]
  else if String.eqb pest "whiteflies" then
    [ "ğŸ’› Install yellow sticky traps"
    ; "ğŸŒ¿ Apply horticultural oil spray"
    ; "ğŸ§¹ Remove lower leaves touching soil" ]
  else [].

(** One turn of the loop over [pest_risks.items()]. *)
Definition recommend_for (recommendations : list string) (item : string * float)
    : list string :=
  let (pest, risk) := item in
  if 0.6 <? risk then recommendations ++ pest_advice pest else recommendations.

Definition humidity_advice : string :=
  "ğŸ’¨ Critical: Increase ventilation to reduce humidity".
Definition heat_advice : string :=
  "â˜€ï¸ Provide shade cloth during peak heat hours".
Definition rain_advice : string :=
  "ğŸŒ§ï¸ Improve drainage and avoid additional watering".

Definition _generate_recommendations (pest_risks : Py.dict float)
    (weather_data : WeatherData) : list string :=
  let recommendations : list string := [] in
  (* High-risk pest specific recommendations *)
  let recommendations := fold_left recommend_for (Py.items pest_risks) recommendations in
  (* Weather-specific recommendations *)
  let recommendations :=
    if 80 <? humidity weather_data
    then recommendations ++ [humidity_advice] else recommendations in
  let recommendations :=
    if 32 <? temperature weather_data
    then recommendations ++ [heat_advice] else recommendations in
  let recommendations :=
    if 15 <? rainfall weather_data
    then recommendations ++ [rain_advice] else recommendations in
  (* Remove duplicates and limit to top 6 *)
  firstn 6 (Py.fromkeys recommendations).

Definition _generate_weather_summary (weather_data : WeatherData) : string :=
  let temp_desc :=
    if 30 <? temperature weather_data then "hot"
    else if 20 <? temperature weather_data then "warm" else "cool" in
  let humidity_desc :=
    if 80 <? humidity weather_data then "very humid"
    else if 60 <? humidity weather_data then "humid" else "dry" in
  let rain_desc :=
    if 10 <? rainfall weather_data then "with significant rainfall"
    else if 2 <? rainfall weather_data then "with light rainfall"
    else "with no rainfall" in
  String.concat ""
    [ "Current conditions: "; temp_desc; " (";
      Py.format_fixed 1 (temperature weather_data); "Â°C"; "), ";
      humidity_desc; " ("; Py.format_fixed 0 (humidity weather_data); "%), ";
      rain_desc; " ("; Py.format_fixed 1 (rainfall weather_data); "mm)" ].

Definition _generate_detailed_analysis (pest_risks : Py.dict float)
    (weather_data : WeatherData) : Py.dict string :=
  let analysis : Py.dict string := [] in
  (* Temperature analysis *)
  let temp := temperature weather_data in
  let analysis :=
    if 32 <? temp then
      Py.set analysis "temperature"
        (String.concat "" [ "High temperature ("; Py.format_fixed 1 temp; "Â°C";
                            ") favors spider mites and heat stress" ])
    else if temp <? 15 then
      Py.set analysis "temperature"
        (String.concat "" [ "Cool temperature ("; Py.format_fixed 1 temp; "Â°C";
                            ") slows pest development but may stress plants" ])
    else
      Py.set analysis "temperature"
        (String.concat "" [ "Moderate temperature ("; Py.format_fixed 1 temp; "Â°C";
                            ") suitable for most pest activity" ]) in
  (* Humidity analysis *)
  let humidity := humidity weather_data in
  let analysis :=
    if 75 <? humidity then
      Py.set analysis "humidity"
        (String.concat "" [ "High humidity ("; Py.format_fixed 0 humidity;
                            "%) creates ideal conditions for fungal diseases" ])
    else if humidity <? 40 then
      Py.set analysis "humidity"
        (String.concat "" [ "Low humidity ("; Py.format_fixed 0 humidity;
                            "%) favors spider mites and thrips" ])
    else
      Py.set analysis "humidity"
        (String.concat "" [ "Moderate humidity ("; Py.format_fixed 0 humidity;
                            "%) - balanced conditions" ]) in
  (* Rainfall analysis *)
  let rainfall := rainfall weather_data in
  let analysis :=
    if 15 <? rainfall then
      Py.set analysis "rainfall"
        (String.concat "" [ "Heavy rainfall ("; Py.format_fixed 1 rainfall;
                            "mm) increases fungal disease pressure" ])
    else if rainfall <? 2 then
      Py.set analysis "rainfall"
        (String.concat "" [ "Dry conditions ("; Py.format_fixed 1 rainfall;
                            "mm) favor drought-stress pests" ])
    else
      Py.set analysis "rainfall"
        (String.concat "" [ "Moderate moisture ("; Py.format_fixed 1 rainfall;
                            "mm) - good for plant health" ]) in
  analysis.

(** [assess_pest_risk]; [None] when a step raises. *)
Definition assess_pest_risk (weather_data : WeatherData) : option PestRiskAssessment :=
  (* Calculate individual pest risks *)
  let pest_risks := _calculate_individual_pest_risks weather_data in
  (* Determine overall risk level *)
  match _determine_overall_risk pest_risks weather_data with
  | None => None
  | Some overall_risk =>
      (* Generate specific recommendations *)
      let recommendations := _generate_recommendations pest_risks weather_data in
      (* Identify primary threats *)
      let primary_threats := _identify_primary_threats pest_risks in
      Some (mkPestRiskAssessment
              (level overall_risk)
              (color overall_risk)
              (emoji overall_risk)
              (overall_confidence overall_risk)
              primary_threats
              recommendations
              (_generate_weather_summary weather_data)
              (_generate_detailed_analysis pest_risks weather_data))
  end.

End PestRiskEngine.

(** ** [get_pest_risk_assessment]

    The assessment object is updated in place, one attribute at a time. *)

Definition set_risk_level (v : string) (a : PestRiskAssessment) : PestRiskAssessment :=
  mkPestRiskAssessment v (risk_color a) (risk_emoji a) (confidence a) (primary_threats a)
    (recommendations a) (weather_summary a) (detailed_analysis a).
Definition set_risk_color (v : string) (a : PestRiskAssessment) : PestRiskAssessment :=
  mkPestRiskAssessment (risk_level a) v (risk_emoji a) (confidence a) (primary_threats a)
    (recommendations a) (weather_summary a) (detailed_analysis a).
Definition set_risk_emoji (v : string) (a : PestRiskAssessment) : PestRiskAssessment :=
  mkPestRiskAssessment (risk_level a) (risk_color a) v (confidence a) (primary_threats a)
    (recommendations a) (weather_summary a) (detailed_analysis a).
Definition set_confidence (v : float) (a : PestRiskAssessment) : PestRiskAssessment :=
  mkPestRiskAssessment (risk_level a) (risk_color a) (risk_emoji a) v (primary_threats a)
    (recommendations a) (weather_summary a) (detailed_analysis a).
Definition set_primary_threats (v : list string) (a : PestRiskAssessment) : PestRiskAssessment :=
  mkPestRiskAssessment (risk_level a) (risk_color a) (risk_emoji a) (confidence a) v
    (recommendations a) (weather_summary a) (detailed_analysis a).
Definition set_recommendations (v : list string) (a : PestRiskAssessment) : PestRiskAssessment :=
  mkPestRiskAssessment (risk_level a) (risk_color a) (risk_emoji a) (confidence a)
    (primary_threats a) v (weather_summary a) (detailed_analysis a).
Definition set_weather_summary (v : string) (a : PestRiskAssessment) : PestRiskAssessment :=
  mkPestRiskAssessment (risk_level a) (risk_color a) (risk_emoji a) (confidence a)
    (primary_threats a) (recommendations a) v (detailed_analysis a).
Definition set_detailed_analysis (v : Py.dict string) (a : PestRiskAssessment)
    : PestRiskAssessment :=
  mkPestRiskAssessment (risk_level a) (risk_color a) (risk_emoji a) (confidence a)
    (primary_threats a) (recommendations a) (weather_summary a) v.

(** [outcome], [now] and [pick] are what the environment contributes to the
    call: the reply of the weather service, the clock and the random draw. *)
Definition get_pest_risk_assessment (location : string) (api_key : option string)
    (disease : option string) (outcome : PestRiskEngine.ApiOutcome) (now : Z) (pick : nat)
    : option PestRiskAssessment :=
  let weather_data := PestRiskEngine.get_weather_data api_key outcome now pick in
  match PestRiskEngine.assess_pest_risk weather_data with
  | None => None
  | Some assessment =>
      (* Unknown case: different color, emoji, and message *)
      if Py.truthy disease
         && String.eqb (Py.lower (match disease with Some d => d | None => "" end)) "unknown"
      then
        let assessment := set_risk_level "Unknown" assessment in
        let assessment := set_risk_color "black" assessment in
        let assessment := set_risk_emoji "âš«" assessment in
        let assessment := set_confidence 0.0 assessment in
        let assessment := set_primary_threats ["Not detected (image unknown)"] assessment in
        let assessment :=
          set_recommendations
            [ "â“ Unable to provide pest risk due to unclear image."
            ; "ğŸ“¸ Retake a clearer photo under good lighting."
            ; "ğŸŒ± Monitor your plant and try again."
            ; "ğŸ” If symptoms persist, consult a plant expert." ] assessment in
        let assessment :=
          set_weather_summary "No valid assessment (image unrecognized)" assessment in
        let assessment := set_detailed_analysis [] assessment in
        Some assessment
      else Some assessment
  end.

(** ** The specification's own words

    Definitions written from the specification, against which the engine's
    functions are compared. *)

Module Spec.

(** *** Section 4.2: the rule table *)

Record Condition : Type := mkCondition
  { holds : WeatherData -> bool
  ; weight : Q }.

Definition within (lo hi x : float) : bool := (lo <=? x) && (x <=? hi).
Definition above (bound x : float) : bool := bound <? x.
Definition below (bound x : float) : bool := x <? bound.

Definition rule_table : list (string * list Condition) :=
  [ ("aphids",
      [ mkCondition (fun r => within 15 25 (temperature r)) 0.4
      ; mkCondition (fun r => above 50 (humidity r)) 0.3
      ; mkCondition (fun r => below 10 (rainfall r)) 0.3 ])
  ; ("fungal_diseases",
      [ mkCondition (fun r => within 20 30 (temperature r)) 0.3
      ; mkCondition (fun r => above 70 (humidity r)) 0.4
      ; mkCondition (fun r => above 5 (rainfall r)) 0.3 ])
  ; ("spider_mites",
      [ mkCondition (fun r => above 27 (temperature r)) 0.4
      ; mkCondition (fun r => below 40 (humidity r)) 0.3
      ; mkCondition (fun r => below 2 (rainfall r)) 0.3 ])
  ; ("thrips",
      [ mkCondition (fun r => within 20 30 (temperature r)) 0.3
      ; mkCondition (fun r => within 40 70 (humidity r)) 0.3
      ; mkCondition (fun r => below 8 (rainfall r)) 0.4 ])
  ; ("whiteflies",
      [ mkCondition (fun r => within 25 32 (temperature r)) 0.4
      ; mkCondition (fun r => above 60 (humidity r)) 0.3
      ; mkCondition (fun r => below 12 (rainfall r)) 0.3 ]) ].

(** The binary64 value nearest to a rational: the correctly rounded quotient
    of its numerator and denominator, both of which are exact floats here. *)
Definition of_Z (z : Z) : float := PrimFloat.of_uint63 (Uint63.of_Z z).
Definition nearest (q : Q) : float := of_Z (Qnum q) / of_Z (Z.pos (Qden q)).

(** The sum of the weights of the satisfied conditions, as an exact number,
    and that sum clamped to [[0,1]]. *)
Definition satisfied_weight (conditions : list Condition) (reading : WeatherData) : Q :=
  fold_left (fun total c => if holds c reading then (total + weight c)%Q else total)
    conditions 0%Q.

Definition clamp_unit (q : Q) : Q := Qmin 1 (Qmax 0 q).

Definition exact_score (conditions : list Condition) (reading : WeatherData) : Q :=
  clamp_unit (satisfied_weight conditions reading).

(** The same sum carried out in floating point, one addition per satisfied
    condition in table order, and clamped. *)
Definition float_sum (conditions : list Condition) (reading : WeatherData) : float :=
  fold_left (fun total c => if holds c reading then total + nearest (weight c) else total)
    conditions 0.

Definition clamp_unit_float (x : float) : float :=
  if x <? 0 then 0 else if 1 <? x then 1 else x.

Definition float_score (conditions : list Condition) (reading : WeatherData) : float :=
  clamp_unit_float (float_sum conditions reading).

(** *** Section 3 and 7: the clamped reading *)

Definition clamp_humidity (h : float) : float :=
  if h <? 0 then 0 else if 100 <? h then 100 else h.
Definition clamp_rainfall (r : float) : float :=
  if r <? 0 then 0 else r.

Definition clamp_reading (reading : WeatherData) : WeatherData :=
  mkWeatherData (temperature reading) (clamp_humidity (humidity reading))
    (clamp_rainfall (rainfall reading)) (timestamp reading).

(** The comparisons through which the engine looks at humidity and at
    rainfall when it scores, escalates and recommends. *)
Definition humidity_atoms (h : float) : list bool :=
  [ 50 <? h; 70 <? h; h <? 40; 40 <=? h; h <=? 70; 60 <? h
  ; 90 <? h; h <? 20; 80 <? h ].

Definition rainfall_atoms (r : float) : list bool :=
  [ r <? 10; 5 <? r; r <? 2; r <? 8; r <? 12; 25 <? r; 15 <? r ].

(** *** Section 4.3: the extreme weather conditions, counted *)

Definition extreme_conditions (reading : WeatherData) : list bool :=
  [ 35 <? temperature reading; temperature reading <? 5
  ; 90 <? humidity reading; humidity reading <? 20
  ; 25 <? rainfall reading ].

Definition extreme_count (reading : WeatherData) : nat :=
  List.length (filter (fun b => b) (extreme_conditions reading)).

(** *** Section 4.4: recommendations *)

(** Duplicates removed, the first occurrence of each string kept in place. *)
Fixpoint dedup_from (seen : list string) (l : list string) : list string :=
  match l with
  | [] => []
  | x :: l' =>
      if existsb (String.eqb x) seen then dedup_from seen l'
      else x :: dedup_from (x :: seen) l'
  end.

Definition dedup (l : list string) : list string := dedup_from [] l.

Definition weather_advisories (reading : WeatherData) : list string :=
  (if 80 <? humidity reading then [PestRiskEngine.humidity_advice] else [])
  ++ (if 32 <? temperature reading then [PestRiskEngine.heat_advice] else [])
  ++ (if 15 <? rainfall reading then [PestRiskEngine.rain_advice] else []).

Definition recommendation_list (scores : Py.dict float) (reading : WeatherData)
    : list string :=
  firstn 6
    (dedup
       (flat_map (fun item => PestRiskEngine.pest_advice (fst item))
          (filter (fun item => 0.6 <? snd item) scores)
        ++ weather_advisories reading)).

(** *** Section 4.5: the assessment of an unrecognized image *)

Definition unknown_assessment : PestRiskAssessment :=
  {| risk_level := "Unknown"
   ; risk_color := "black"
   ; risk_emoji := "âš«"
   ; confidence := 0.0
   ; primary_threats := ["Not detected (image unknown)"]
   ; recommendations :=
       [ "â“ Unable to provide pest risk due to unclear image."
       ; "ğŸ“¸ Retake a clearer photo under good lighting."
       ; "ğŸŒ± Monitor your plant and try again."
       ; "ğŸ” If symptoms persist, consult a plant expert." ]
   ; weather_summary := "No valid assessment (image unrecognized)"
   ; detailed_analysis := [] |}.

(** *** Section 3: a well-formed assessment *)

Definition is_level (s : string) : bool :=
  String.eqb s "Low" || String.eqb s "Medium" || String.eqb s "High".

Fixpoint distinct (l : list string) : bool :=
  match l with
  | [] => true
  | x :: l' => negb (existsb (String.eqb x) l') && distinct l'
  end.

Definition well_formed (a : PestRiskAssessment) : bool :=
  is_level (risk_level a)
  && (0 <=? confidence a) && (confidence a <=? 1)
  && (List.length (primary_threats a) <=? 3)%nat
  && (List.length (recommendations a) <=? 6)%nat
  && distinct (recommendations a)
  && (if list_eq_dec string_dec (Py.keys (detailed_analysis a))
            ["temperature"; "humidity"; "rainfall"]
      then true else false).

End Spec.

(** ** The three levels in order: Low, Medium, High *)

Definition level_rank (level : string) : nat :=
  if String.eqb level "High" then 2
  else if String.eqb level "Medium" then 1
  else 0.

(** ** The web layer ([app.py])

    The handlers that call the engine, with what they take from the request
    and from the environment made explicit.  The confidence of the
    classifier is a NumPy [float32] scalar; it is kept as the binary64 value
    equal to it, which is what its comparisons with [0.4] and [0.6] and its
    formatting work on ([0.4] and [0.6] round upwards to [float32], so the
    comparison gives the same answer in single precision). *)

Module App.

(** [app.config['WEATHER_API_KEY']] as the file sets it. *)
Definition WEATHER_API_KEY : option string := None.

Definition classes : list string := ["Blight"; "Healthy"; "Mosaic"; "Rust"; "Unknown"].
Definition CONFIDENCE_THRESHOLD : float := 0.4.

(** An entry of [RECOMMENDATIONS]; [confidence_note] is the key that
    [get_comprehensive_recommendation] adds to its copy. *)
Record Recommendation : Type := mkRecommendation
  { disease : string
  ; severity : string
  ; immediate_actions : list string
  ; preventive_measures : list string
  ; monitoring : list string
  ; fertilizer_advice : string
  ; organic_solutions : list string
  ; confidence_note : option string }.

Definition RECOMMENDATIONS : Py.dict Recommendation :=
  [ ("Blight",
   {| disease := "Leaf Blight";
     severity := "High";
     immediate_actions :=
         [ "🚨 Remove and destroy affected leaves immediately"
         ; "💧 Reduce watering frequency - avoid overhead watering"
         ; "🌿 Apply copper-based fungicide spray every 7-10 days"
         ; "🍃 Improve air circulation around plants" ];
     preventive_measures :=
         [ "🌱 Plant resistant varieties in future seasons"
         ; "💨 Ensure proper plant spacing for air circulation"
         ; "🚰 Use drip irrigation instead of sprinkler systems"
         ; "🧹 Clean garden tools between plants" ];
     monitoring :=
         [ "👁️ Check plants daily for new spots"
         ; "📊 Monitor humidity levels (keep below 85%)"
         ; "🌡️ Optimal temperature range: 20-25°C" ];
     fertilizer_advice := "Reduce nitrogen fertilizer temporarily. Apply balanced NPK (10-10-10) after disease control.";
     organic_solutions :=
         [ "🥛 Spray diluted milk solution (1:10 ratio)"
         ; "🧄 Neem oil application every 5-7 days"
         ; "🍃 Baking soda spray (1 tsp per liter water)" ];
     confidence_note := None |})
  ; ("Healthy",
   {| disease := "No Disease Detected";
     severity := "None";
     immediate_actions :=
         [ "✅ Continue current care routine"
         ; "💧 Maintain regular watering schedule"
         ; "🌿 Monitor for any changes in leaf color or texture" ];
     preventive_measures :=
         [ "🔄 Rotate crops annually to prevent soil depletion"
         ; "🌱 Apply organic compost monthly"
         ; "🛡️ Maintain preventive spray schedule with neem oil"
         ; "🌾 Ensure proper plant nutrition" ];
     monitoring :=
         [ "📅 Weekly health inspections"
         ; "🌧️ Monitor weather conditions for disease risks"
         ; "🐛 Check for early pest signs" ];
     fertilizer_advice := "Apply balanced fertilizer (NPK 20-20-20) bi-weekly during growing season.";
     organic_solutions :=
         [ "🍂 Mulch around plants to retain moisture"
         ; "🦋 Encourage beneficial insects with companion planting"
         ; "☀️ Ensure 6-8 hours of direct sunlight daily" ];
     confidence_note := None |})
  ; ("Mosaic",
   {| disease := "Mosaic Virus";
     severity := "High";
     immediate_actions :=
         [ "🚨 Isolate affected plants immediately"
         ; "🔥 Remove and burn infected plants (do not compost)"
         ; "🧤 Disinfect tools with 10% bleach solution"
         ; "🚫 Avoid handling healthy plants after touching infected ones" ];
     preventive_measures :=
         [ "🐛 Control aphids and other virus-carrying insects"
         ; "🌱 Use certified virus-free seeds and seedlings"
         ; "🧹 Maintain strict garden hygiene"
         ; "🚰 Avoid overhead watering" ];
     monitoring :=
         [ "🔍 Inspect new growth for mosaic patterns"
         ; "🐜 Monitor for aphid populations"
         ; "📈 Track spread to neighboring plants" ];
     fertilizer_advice := "Boost plant immunity with phosphorus-rich fertilizer. Avoid high nitrogen during infection.";
     organic_solutions :=
         [ "🌿 Spray insecticidal soap for aphid control"
         ; "🧄 Apply neem oil to deter virus vectors"
         ; "🍃 Use reflective mulch to confuse aphids" ];
     confidence_note := None |})
  ; ("Rust",
   {| disease := "Leaf Rust";
     severity := "Medium";
     immediate_actions :=
         [ "🍃 Remove rust-infected leaves and dispose in trash"
         ; "💨 Improve air circulation around plants"
         ; "🌿 Apply sulfur-based fungicide spray"
         ; "💧 Water at soil level, avoid wetting leaves" ];
     preventive_measures :=
         [ "🌱 Choose rust-resistant plant varieties"
         ; "📏 Maintain proper plant spacing"
         ; "🌤️ Avoid watering in evening hours"
         ; "🧹 Clean up fallen leaves regularly" ];
     monitoring :=
         [ "👀 Check undersides of leaves for orange spores"
         ; "🌡️ Monitor temperature (rust thrives in 20-25°C)"
         ; "💧 Watch humidity levels (high humidity increases risk)" ];
     fertilizer_advice := "Apply potassium-rich fertilizer to strengthen plant resistance. Reduce nitrogen temporarily.";
     organic_solutions :=
         [ "🧄 Weekly neem oil applications"
         ; "☕ Spray compost tea to boost plant immunity"
         ; "🌿 Plant garlic nearby as natural fungicide" ];
     confidence_note := None |})
  ; ("Unknown",
   {| disease := "Unidentified Condition";
     severity := "Unknown";
     immediate_actions :=
         [ "📸 Take clearer photos with better lighting"
         ; "🔍 Consult agricultural expert for identification"
         ; "🌿 Isolate plant as precautionary measure" ];
     preventive_measures :=
         ["Not applicable until proper identification"];
     monitoring :=
         ["Not applicable until proper identification"];
     fertilizer_advice := "Not applicable - proper diagnosis required first";
     organic_solutions :=
         ["Not applicable until proper identification"];
     confidence_note := None |}) ].

(** [format(x, ".1%")]: the value times 100, in fixed notation, then a percent
    sign. *)
Definition format_percent (places : nat) (x : float) : string :=
  String.append (Py.format_fixed places (x * 100)) "%".

(** The truth value of a float: anything but zero. *)
Definition float_truthy (x : float) : bool := negb (x =? 0).

Definition with_confidence_note (note : string) (r : Recommendation) : Recommendation :=
  mkRecommendation (disease r) (severity r) (immediate_actions r) (preventive_measures r)
    (monitoring r) (fertilizer_advice r) (organic_solutions r) (Some note).

Definition unknown_entry : Recommendation :=
  Py.get_default RECOMMENDATIONS "Unknown"
    (mkRecommendation "" "" [] [] [] "" [] None).

(** The text stored under ['confidence_note']. *)
Definition low_confidence_note (confidence_score : float) : string :=
  String.concat ""
    [ "⚠️ Detection confidence: "; format_percent 1 confidence_score
    ; ". Consider getting second opinion." ].

Definition get_comprehensive_recommendation (prediction : string)
    (confidence_score : option float) : Recommendation :=
  let base_rec := Py.get_default RECOMMENDATIONS prediction unknown_entry in
  (* Add confidence-based adjustments *)
  match confidence_score with
  | Some score =>
      if float_truthy score then
        if score <? 0.6 then
          with_confidence_note (low_confidence_note score) base_rec
        else base_rec
      else base_rec
  | None => base_rec
  end.

(** ['.' in filename] *)
Fixpoint contains_dot (s : string) : bool :=
  match s with
  | EmptyString => false
  | String c s' => if Ascii.eqb c "." then true else contains_dot s'
  end.

(** The two parts of [s.rsplit('.', 1)] when [s] has a dot: the text before
    the last dot and the text after it. *)
Fixpoint split_last_dot (s : string) : option (string * string) :=
  match s with
  | EmptyString => None
  | String c s' =>
      match split_last_dot s' with
      | Some (head, tail) => Some (String c head, tail)
      | None => if Ascii.eqb c "." then Some (EmptyString, s') else None
      end
  end.

(** [s.rsplit('.', 1)] *)
Definition rsplit_dot (s : string) : list string :=
  match split_last_dot s with
  | Some (head, tail) => [head; tail]
  | None => [s]
  end.

(** [allowed_file]; [None] is the [IndexError] of the subscript [[1]]. *)
Definition allowed_file (filename : string) : option bool :=
  if contains_dot filename then
    match nth_error (rsplit_dot filename) 1 with
    | Some extension =>
        Some (existsb (String.eqb (Py.lower extension)) ["jpg"; "jpeg"; "png"])
    | None => None
    end
  else Some false.

(** *** [/api/pest-risk] *)




(** *** [/index] *)

(** The keyword arguments given to the template [index.html]. *)
Record IndexPage : Type := mkIndexPage
  { page_prediction : option string
  ; page_img_path : option string
  ; page_confidence : option float
  ; page_recommendations : option Recommendation
  ; page_pest_risk : option PestRiskAssessment
  ; page_error : option string }.

Inductive Response : Type :=
| Plain (body : string) (status : Z)
| Index (page : IndexPage) (status : Z).

(** What the handler does to the upload folder. *)
Inductive FileEvent : Type :=
| Saved (filename : string)
| Removed (filename : string).

Inductive Request : Type :=
| Get
| Post (file : option string).   (* the filename of the part named 'file', if any *)

(** What the environment contributes to one request.  A step that can raise
    gives the text of its exception on the left. *)
Record Environment : Type := mkEnvironment
  { uuid_hex : string                      (* uuid.uuid4().hex *)
  ; save_error : option string             (* f.save(filepath) raising *)
  ; file_size : string + Z                 (* os.path.getsize(filepath) *)
  ; remove_error : option string           (* os.remove(filepath) raising *)
  ; inference : string + (float * nat)     (* load_img ... reduce_max and argmax *)
  ; weather : PestRiskEngine.ApiOutcome
  ; clock : Z
  ; draw : nat }.

(** Lines 327-332: the class shown for the best probability [max_prob],
    reached at index [argmax]; [None] is the [IndexError] of the subscript. *)
Definition classify (max_prob : float) (argmax : nat) : option string :=
  if max_prob <? CONFIDENCE_THRESHOLD then Some "Unknown"
  else nth_error classes argmax.

Definition error_page (text : string) : Response :=
  Index (mkIndexPage None None None None None
           (Some (String.append "An error occurred: " text))) 500.

Definition plant_detection (api_key : option string) (request : Request) (env : Environment)
    : Response * list FileEvent :=
  match request with
  | Post file =>
      match file with
      | None => (Plain "No file part in the request." 400, [])
      | Some f_filename =>
          if String.eqb f_filename "" then
            (Plain "No file selected. Please upload an image." 400, [])
          else
            let ext :=
              if contains_dot f_filename then
                match nth_error (rsplit_dot f_filename) 1 with
                | Some extension => Some (String.append "." (Py.lower extension))
                | None => None
                end
              else Some ".jpg" (* default extension if none provided *) in
            match ext, allowed_file f_filename with
            | None, _ | _, None => (error_page "list index out of range", [])
            | Some ext, Some false =>
                (Plain "Unsupported file format. Please upload JPG or PNG image." 400, [])
            | Some ext, Some true =>
                let filename := String.append "upload_" (String.append (uuid_hex env) ext) in
                match save_error env with
                | Some text => (error_page text, [])
                | None =>
                    match file_size env with
                    | inl text => (error_page text, [Saved filename])
                    | inr size =>
                        if (size <? 1 * 1024)%Z then
                          match remove_error env with
                          | Some text => (error_page text, [Saved filename])
                          | None =>
                              (Plain "File too small or corrupted. Please upload a valid image."
                                 400,
                               [Saved filename; Removed filename])
                          end
                        else
                          match inference env with
                          | inl text => (error_page text, [Saved filename])
                          | inr (max_prob, argmax) =>
                              match classify max_prob argmax with
                              | None => (error_page "list index out of range", [Saved filename])
                              | Some pred_class =>
                                  let confidence := max_prob in
                                  let recommendations :=
                                    get_comprehensive_recommendation pred_class
                                      (Some confidence) in
                                  let pest_risk :=
                                    if String.eqb (Py.lower pred_class) "unknown" then
                                      get_pest_risk_assessment "Delhi" api_key (Some "Unknown")
                                        (weather env) (clock env) (draw env)
                                    else
                                      get_pest_risk_assessment "Delhi" api_key None
                                        (weather env) (clock env) (draw env) in
                                  (Index (mkIndexPage (Some pred_class) (Some filename)
                                            (Some confidence) (Some recommendations)
                                            pest_risk None) 200,
                                   [Saved filename])
                              end
                          end
                    end
                end
            end
      end
  | Get =>
      (* GET request - just show landing page without prediction info *)
      let pest_risk :=
        get_pest_risk_assessment "Delhi" api_key None (weather env) (clock env) (draw env) in
      (Index (mkIndexPage None None None None pest_risk None) 200, [])
  end.

(** An environment in which every step succeeds: a file of 4096 bytes that
    the classifier takes for class 1 with confidence 0.9, and a weather
    request that fails. *)
Definition calm_environment : Environment :=
  mkEnvironment "3f2a" None (inr 4096%Z) None (inr (0.9, 1%nat)) PestRiskEngine.Raised 0 0.

(** The same with a file of 100 bytes. *)
Definition small_file_environment : Environment :=
  mkEnvironment "3f2a" None (inr 100%Z) None (inr (0.9, 1%nat)) PestRiskEngine.Raised 0 0.


End App.

(** ** The standalone classifier ([predict.py]) *)

Module Predict.

Definition classes : list string := ["Blight"; "Healthy"; "Mosaic"; "Rust"; "Unknown"].
Definition threshold : float := 0.3.  (* confidence threshold for unknown prediction *)

(** The decision of [predict_image] on the output of the model: [max_prob] is
    [np.max(pred)] and [argmax] is [np.argmax(pred)]; [None] is the
    [IndexError] of the subscript. *)
Definition predict_image (max_prob : float) (argmax : nat) : option string :=
  if max_prob <? threshold then Some "Unknown"
  else nth_error classes argmax.

End Predict.

(** ** The order of binary64 values

    Every value that is not NaN is sent to a triple of integers so that the
    comparisons of floats become the lexicographic order of the triples:
    first the class (minus infinity, negative, zero, positive, plus
    infinity), then the exponent and the mantissa, negated for negative
    values. *)

Module FloatOrder.

Definition key : Type := (Z * (Z * Z))%type.

Definition sf_key (f : spec_float) : key :=
  match f with
  | S754_nan => (0, (0, 0))%Z
  | S754_zero _ => (0, (0, 0))%Z
  | S754_infinity true => (-2, (0, 0))%Z
  | S754_infinity false => (2, (0, 0))%Z
  | S754_finite true m e => (-1, (- e, Z.neg m))%Z
  | S754_finite false m e => (1, (e, Z.pos m))%Z
  end.

Definition fkey (x : float) : key := sf_key (Prim2SF x).

Definition lex_compare (a b : key) : comparison :=
  match (fst a ?= fst b)%Z with
  | Eq => match (fst (snd a) ?= fst (snd b))%Z with
          | Eq => (snd (snd a) ?= snd (snd b))%Z
          | c => c
          end
  | c => c
  end.

Definition lex_lt (a b : key) : Prop :=
  (fst a < fst b \/
   (fst a = fst b /\
    (fst (snd a) < fst (snd b) \/
     (fst (snd a) = fst (snd b) /\ snd (snd a) < snd (snd b)))))%Z.

Definition lex_le (a b : key) : Prop :=
  (fst a < fst b \/
   (fst a = fst b /\
    (fst (snd a) < fst (snd b) \/
     (fst (snd a) = fst (snd b) /\ snd (snd a) <= snd (snd b)))))%Z.

End FloatOrder.

(** The floats a score can be. *)
Definition score_values : list float := [0; 0.3; 0.4; 0.6; 0.7; 1].

Definition not_nan (x : float) : Prop := is_nan x = false.

(** [a] may stand before [b] in a list in descending order of score. *)
Definition ranked_before {A : Type} (score : A -> float) (a b : A) : Prop :=
  (score b <=? score a) = true.

(** The score of [a] equals [v]. *)
Definition tied_at {A : Type} (score : A -> float) (v : float) (a : A) : bool :=
  score a =? v.

(** Items in descending order of score. *)
Definition descending (l : list (string * float)) : Prop :=
  StronglySorted (ranked_before snd) l.

(** * Properties *)

(** ** Comparisons of floats as comparisons of keys *)

Module FloatFacts.
Import FloatOrder.

Lemma sf_compare_key (f g : spec_float) :
  f <> S754_nan -> g <> S754_nan ->
  SFcompare f g = Some (lex_compare (sf_key f) (sf_key g)).
Proof.
  intros Hf Hg.
  destruct f as [s1|s1| |s1 m1 e1], g as [s2|s2| |s2 m2 e2];
    try congruence; try destruct s1; try destruct s2; try reflexivity;
    unfold lex_compare; cbn [SFcompare sf_key fst snd]; f_equal.
  - change (-1 ?= -1)%Z with Eq. cbv iota.
    rewrite Z.compare_opp, (Z.compare_antisym e1 e2).
    destruct (e1 ?= e2)%Z; reflexivity.
Qed.

Lemma lex_compare_lt (a b : key) : lex_compare a b = Lt <-> lex_lt a b.
Proof.
  unfold lex_compare, lex_lt.
  destruct (Z.compare_spec (fst a) (fst b));
    destruct (Z.compare_spec (fst (snd a)) (fst (snd b)));
    destruct (Z.compare_spec (snd (snd a)) (snd (snd b)));
    split; intros; try congruence; try lia.
Qed.

Lemma lex_compare_le (a b : key) : lex_compare a b <> Gt <-> lex_le a b.
Proof.
  unfold lex_compare, lex_le.
  destruct (Z.compare_spec (fst a) (fst b));
    destruct (Z.compare_spec (fst (snd a)) (fst (snd b)));
    destruct (Z.compare_spec (snd (snd a)) (snd (snd b)));
    split; intros; try congruence; try lia.
Qed.

Lemma lex_compare_eq (a b : key) : lex_compare a b = Eq <-> a = b.
Proof.
  unfold lex_compare. destruct a as [a1 [a2 a3]], b as [b1 [b2 b3]]. cbn [fst snd].
  destruct (Z.compare_spec a1 b1);
    destruct (Z.compare_spec a2 b2);
    destruct (Z.compare_spec a3 b3);
    split; intros; try congruence; subst; try lia;
    match goal with H : _ = _ |- _ => inversion H; lia end.
Qed.

Lemma is_nan_spec (x : float) : is_nan x = true <-> Prim2SF x = S754_nan.
Proof.
  unfold is_nan. rewrite FloatAxioms.eqb_spec. unfold SFeqb.
  destruct (Prim2SF x) as [s|s| |s m e] eqn:E.
  - cbn. split; discriminate.
  - destruct s; cbn; split; discriminate.
  - cbn. split; reflexivity.
  - rewrite sf_compare_key by discriminate.
    assert (lex_compare (sf_key (S754_finite s m e)) (sf_key (S754_finite s m e)) = Eq)
      as -> by (apply lex_compare_eq; reflexivity).
    cbn. split; discriminate.
Qed.

Lemma not_nan_spec (x : float) : is_nan x = false <-> Prim2SF x <> S754_nan.
Proof.
  rewrite <- is_nan_spec. destruct (is_nan x); split; congruence.
Qed.

Lemma ltb_nan_l (x y : float) : is_nan x = true -> (x <? y) = false.
Proof.
  intros H. apply is_nan_spec in H. rewrite FloatAxioms.ltb_spec, H. reflexivity.
Qed.

Lemma ltb_nan_r (x y : float) : is_nan y = true -> (x <? y) = false.
Proof.
  intros H. apply is_nan_spec in H. rewrite FloatAxioms.ltb_spec, H.
  unfold SFltb. destruct (Prim2SF x) as [s|s| |s m e]; reflexivity.
Qed.

Lemma leb_nan_l (x y : float) : is_nan x = true -> (x <=? y) = false.
Proof.
  intros H. apply is_nan_spec in H. rewrite FloatAxioms.leb_spec, H. reflexivity.
Qed.

Lemma leb_nan_r (x y : float) : is_nan y = true -> (x <=? y) = false.
Proof.
  intros H. apply is_nan_spec in H. rewrite FloatAxioms.leb_spec, H.
  unfold SFleb. destruct (Prim2SF x) as [s|s| |s m e]; reflexivity.
Qed.

Section Ordered.
Variables x y : float.
Hypothesis Hx : is_nan x = false.
Hypothesis Hy : is_nan y = false.

Lemma compare_key :
  SFcompare (Prim2SF x) (Prim2SF y) = Some (lex_compare (fkey x) (fkey y)).
Proof. apply sf_compare_key; apply not_nan_spec; assumption. Qed.

Lemma ltb_true_iff : (x <? y) = true <-> lex_lt (fkey x) (fkey y).
Proof.
  rewrite FloatAxioms.ltb_spec. unfold SFltb. rewrite compare_key, <- lex_compare_lt.
  destruct (lex_compare (fkey x) (fkey y)); split; congruence.
Qed.

Lemma leb_true_iff : (x <=? y) = true <-> lex_le (fkey x) (fkey y).
Proof.
  rewrite FloatAxioms.leb_spec. unfold SFleb. rewrite compare_key, <- lex_compare_le.
  destruct (lex_compare (fkey x) (fkey y)); split; congruence.
Qed.

Lemma eqb_true_iff : (x =? y) = true <-> fkey x = fkey y.
Proof.
  rewrite FloatAxioms.eqb_spec. unfold SFeqb. rewrite compare_key, <- lex_compare_eq.
  destruct (lex_compare (fkey x) (fkey y)); split; congruence.
Qed.
End Ordered.

Lemma ltb_false_iff (x y : float) :
  is_nan x = false -> is_nan y = false ->
  (x <? y) = false <-> lex_le (fkey y) (fkey x).
Proof.
  intros Hx Hy. pose proof (ltb_true_iff x y Hx Hy) as H.
  unfold lex_lt, lex_le in *. destruct (x <? y); split; intros; try congruence; try lia.
Qed.

Lemma leb_false_iff (x y : float) :
  is_nan x = false -> is_nan y = false ->
  (x <=? y) = false <-> lex_lt (fkey y) (fkey x).
Proof.
  intros Hx Hy. pose proof (leb_true_iff x y Hx Hy) as H.
  unfold lex_lt, lex_le in *. destruct (x <=? y); split; intros; try congruence; try lia.
Qed.


(** Turn every comparison of the goal and of the context into a statement
    on keys, evaluate the keys of constants and let [lia] conclude. *)
Ltac key_of_constant c :=
  let k := eval vm_compute in (fkey c) in
  change (fkey c) with k in *.

Ltac name_keys :=
  repeat match goal with
    | x : float |- _ =>
        match goal with
        | |- context [fkey x] => idtac
        | H : context [fkey x] |- _ => idtac
        end;
        let a := fresh "a" in let b := fresh "b" in let c := fresh "c" in
        destruct (fkey x) as [a [b c]]
    end.

Ltac constant_keys :=
  repeat match goal with
    | |- context [fkey ?c] => key_of_constant c
    | H : context [fkey ?c] |- _ => key_of_constant c
    end.

Ltac order_lia :=
  name_keys; constant_keys;
  unfold lex_lt, lex_le in *; cbn [fst snd] in *;
  repeat match goal with
    | H : (_, (_, _)) = (_, (_, _)) |- _ => injection H as ? ? ?
    end;
  try lia.

(** A proof that [x] is not NaN: a hypothesis, or a computation when [x] is
    a constant. *)
Ltac nan_fact x :=
  match goal with
  | H : is_nan x = false |- _ => constr:(H)
  | _ => constr:(eq_refl false : is_nan x = false)
  end.

Ltac key_hyp H :=
  match type of H with
  | (?x <? ?y) = true =>
      let hx := nan_fact x in let hy := nan_fact y in
      apply (proj1 (ltb_true_iff x y hx hy)) in H
  | (?x <? ?y) = false =>
      let hx := nan_fact x in let hy := nan_fact y in
      apply (proj1 (ltb_false_iff x y hx hy)) in H
  | (?x <=? ?y) = true =>
      let hx := nan_fact x in let hy := nan_fact y in
      apply (proj1 (leb_true_iff x y hx hy)) in H
  | (?x <=? ?y) = false =>
      let hx := nan_fact x in let hy := nan_fact y in
      apply (proj1 (leb_false_iff x y hx hy)) in H
  end.

Ltac key_goal :=
  match goal with
  | |- (?x <? ?y) = true =>
      let hx := nan_fact x in let hy := nan_fact y in
      apply (proj2 (ltb_true_iff x y hx hy))
  | |- (?x <? ?y) = false =>
      let hx := nan_fact x in let hy := nan_fact y in
      apply (proj2 (ltb_false_iff x y hx hy))
  | |- (?x <=? ?y) = true =>
      let hx := nan_fact x in let hy := nan_fact y in
      apply (proj2 (leb_true_iff x y hx hy))
  | |- (?x <=? ?y) = false =>
      let hx := nan_fact x in let hy := nan_fact y in
      apply (proj2 (leb_false_iff x y hx hy))
  | |- False => idtac
  end.

(** Decide a comparison from the comparisons in the context. *)
Ltac float_order :=
  repeat match goal with
    | H : (_ <? _) = _ |- _ => key_hyp H
    | H : (_ <=? _) = _ |- _ => key_hyp H
    end;
  key_goal; order_lia.

Ltac settle_atom a :=
  let E := fresh "E" in
  first [ assert (E : a = true) by float_order
        | assert (E : a = false) by float_order ];
  rewrite E; clear E.

(** Replace every comparison of the goal whose value follows from the
    context by that value. *)
Ltac settle :=
  repeat match goal with
    | |- context [PrimFloat.ltb ?a ?b] =>
        first [is_var a | is_var b]; settle_atom (PrimFloat.ltb a b)
    | |- context [PrimFloat.leb ?a ?b] =>
        first [is_var a | is_var b]; settle_atom (PrimFloat.leb a b)
    end.

Lemma eqb_true_not_nan (x y : float) :
  (x =? y) = true -> is_nan x = false /\ is_nan y = false.
Proof.
  rewrite FloatAxioms.eqb_spec. intros H.
  split; apply not_nan_spec; intros E; rewrite E in H.
  - discriminate.
  - unfold SFeqb in H. destruct (Prim2SF x) as [s|s| |s m e]; discriminate.
Qed.

Lemma ltb_true_not_nan (x y : float) :
  (x <? y) = true -> is_nan x = false /\ is_nan y = false.
Proof.
  intros H. split.
  - destruct (is_nan x) eqn:E; [|reflexivity]. rewrite (ltb_nan_l _ _ E) in H. discriminate.
  - destruct (is_nan y) eqn:E; [|reflexivity]. rewrite (ltb_nan_r _ _ E) in H. discriminate.
Qed.

Lemma leb_true_not_nan (x y : float) :
  (x <=? y) = true -> is_nan x = false /\ is_nan y = false.
Proof.
  intros H. split.
  - destruct (is_nan x) eqn:E; [|reflexivity]. rewrite (leb_nan_l _ _ E) in H. discriminate.
  - destruct (is_nan y) eqn:E; [|reflexivity]. rewrite (leb_nan_r _ _ E) in H. discriminate.
Qed.

Lemma leb_refl (x : float) : is_nan x = false -> (x <=? x) = true.
Proof. intros Hx. apply leb_true_iff; trivial. order_lia. Qed.

Lemma leb_trans (x y z : float) :
  (x <=? y) = true -> (y <=? z) = true -> (x <=? z) = true.
Proof.
  intros Hxy Hyz.
  destruct (leb_true_not_nan _ _ Hxy) as [Hx Hy], (leb_true_not_nan _ _ Hyz) as [_ Hz].
  apply leb_true_iff in Hxy, Hyz; trivial. apply leb_true_iff; trivial. order_lia.
Qed.

Lemma ltb_leb (x y : float) : (x <? y) = true -> (x <=? y) = true.
Proof.
  intros Hxy. destruct (ltb_true_not_nan _ _ Hxy) as [Hx Hy].
  apply ltb_true_iff in Hxy; trivial. apply leb_true_iff; trivial. order_lia.
Qed.

Lemma ltb_false_leb (x y : float) :
  is_nan x = false -> is_nan y = false -> (x <? y) = false -> (y <=? x) = true.
Proof.
  intros Hx Hy H. apply ltb_false_iff in H; trivial. apply leb_true_iff; trivial.
Qed.

Lemma leb_ltb_false (x y : float) : (x <=? y) = true -> (y <? x) = false.
Proof.
  intros H. destruct (leb_true_not_nan _ _ H) as [Hx Hy].
  apply ltb_false_iff; trivial. apply leb_true_iff in H; trivial.
Qed.

Lemma eqb_ltb_false (x y v : float) :
  (x =? v) = true -> (y =? v) = true -> (x <? y) = false.
Proof.
  intros Hxv Hyv.
  destruct (eqb_true_not_nan _ _ Hxv) as [Hx Hv], (eqb_true_not_nan _ _ Hyv) as [Hy _].
  apply eqb_true_iff in Hxv, Hyv; trivial. apply ltb_false_iff; trivial.
  rewrite Hxv, Hyv. order_lia.
Qed.

End FloatFacts.

(** ** Lists: maximum, stable sorting, removal of duplicates *)

Section Maximum.

Lemma max_from_in (l : list float) :
  forall current, In (Py.max_from current l) (current :: l).
Proof.
  induction l as [|item rest IH]; intros current; cbn [Py.max_from].
  - left. reflexivity.
  - destruct (IH (if current <? item then item else current)) as [H|H].
    + destruct (current <? item); [right; left | left]; exact H.
    + right. right. exact H.
Qed.

Lemma max_from_upper (l : list float) :
  forall current, not_nan current -> Forall not_nan l ->
  forall x, In x (current :: l) -> (x <=? Py.max_from current l) = true.
Proof.
  induction l as [|item rest IH]; intros current Hc Hl x Hx; cbn [Py.max_from].
  - destruct Hx as [<-|[]]. apply FloatFacts.leb_refl. exact Hc.
  - inversion Hl as [|? ? Hi Hrest]; subst.
    set (next := if current <? item then item else current).
    assert (Hn : not_nan next) by (unfold next; destruct (current <? item); assumption).
    assert (Hbelow : (current <=? next) = true /\ (item <=? next) = true).
    { unfold next. destruct (current <? item) eqn:E.
      - split; [apply FloatFacts.ltb_leb, E | apply FloatFacts.leb_refl, Hi].
      - split; [apply FloatFacts.leb_refl, Hc | apply FloatFacts.ltb_false_leb; assumption]. }
    assert (Htop : (next <=? Py.max_from next rest) = true)
      by (apply IH; [assumption | assumption | left; reflexivity]).
    destruct Hx as [<-|[<-|Hx]].
    + apply FloatFacts.leb_trans with next; tauto.
    + apply FloatFacts.leb_trans with next; tauto.
    + apply IH; [assumption | assumption | right; exact Hx].
Qed.

End Maximum.

Section StableSort.

Variable A : Type.
Variable score : A -> float.

Lemma insert_desc_perm (x : A) (l : list A) :
  Permutation (Py.insert_desc score x l) (x :: l).
Proof.
  induction l as [|y l IH]; cbn [Py.insert_desc].
  - apply Permutation_refl.
  - destruct (score x <? score y).
    + apply perm_trans with (y :: x :: l); [apply perm_skip, IH | apply perm_swap].
    + apply Permutation_refl.
Qed.

Lemma sorted_desc_perm (l : list A) : Permutation (Py.sorted_desc score l) l.
Proof.
  induction l as [|x l IH]; cbn.
  - apply perm_nil.
  - apply perm_trans with (x :: Py.sorted_desc score l);
      [apply insert_desc_perm | apply perm_skip, IH].
Qed.

Lemma insert_desc_sorted (x : A) (l : list A) :
  not_nan (score x) -> Forall (fun a => not_nan (score a)) l ->
  StronglySorted (ranked_before score) l -> StronglySorted (ranked_before score) (Py.insert_desc score x l).
Proof.
  intros Hx Hl Hs. induction Hs as [|y l Hs IH Hy]; cbn [Py.insert_desc].
  - constructor; constructor.
  - inversion Hl as [|? ? Hyn Hln]; subst.
    destruct (score x <? score y) eqn:E.
    + constructor; [apply IH, Hln|].
      apply (Permutation_Forall (Permutation_sym (insert_desc_perm x l))).
      constructor; [apply FloatFacts.ltb_leb, E | exact Hy].
    + assert (Hyx : ranked_before score x y) by (apply FloatFacts.ltb_false_leb; assumption).
      constructor; [constructor; assumption|].
      constructor; [exact Hyx|].
      eapply Forall_impl; [|exact Hy].
      intros a Ha. unfold ranked_before in *. apply FloatFacts.leb_trans with (score y); assumption.
Qed.

Lemma sorted_desc_sorted (l : list A) :
  Forall (fun a => not_nan (score a)) l -> StronglySorted (ranked_before score) (Py.sorted_desc score l).
Proof.
  induction l as [|x l IH]; intros Hl; cbn.
  - constructor.
  - inversion Hl as [|? ? Hx Hl']; subst.
    apply insert_desc_sorted; [exact Hx| |apply IH, Hl'].
    apply (Permutation_Forall (Permutation_sym (sorted_desc_perm l))). exact Hl'.
Qed.

(** Stability: among the items whose score is [v], the order is unchanged. *)
Lemma insert_desc_tied (v : float) (x : A) (l : list A) :
  filter (tied_at score v) (Py.insert_desc score x l) = filter (tied_at score v) (x :: l).
Proof.
  induction l as [|y l IH]; cbn [Py.insert_desc]; [reflexivity|].
  destruct (score x <? score y) eqn:E; [|reflexivity].
  cbn [filter] in *. rewrite IH.
  destruct (tied_at score v x) eqn:Tx, (tied_at score v y) eqn:Ty; try reflexivity.
  unfold tied_at in Tx, Ty. rewrite (FloatFacts.eqb_ltb_false _ _ _ Tx Ty) in E. discriminate.
Qed.

Lemma sorted_desc_tied (v : float) (l : list A) :
  filter (tied_at score v) (Py.sorted_desc score l) = filter (tied_at score v) l.
Proof.
  induction l as [|x l IH]; cbn [Py.sorted_desc fold_right]; [reflexivity|].
  fold (Py.sorted_desc score l). rewrite insert_desc_tied. cbn [filter]. rewrite IH. reflexivity.
Qed.

Lemma filter_perm (p : A -> bool) (l l' : list A) :
  Permutation l l' -> Permutation (filter p l) (filter p l').
Proof.
  induction 1 as [|x l l' _ IH|x y l|l l' l'' _ IH1 _ IH2]; cbn [filter].
  - apply perm_nil.
  - destruct (p x); [apply perm_skip|]; exact IH.
  - destruct (p x), (p y); try apply Permutation_refl. apply perm_swap.
  - apply perm_trans with (filter p l'); assumption.
Qed.

Lemma filter_sorted (R : A -> A -> Prop) (p : A -> bool) (l : list A) :
  StronglySorted R l -> StronglySorted R (filter p l).
Proof.
  induction 1 as [|x l _ IH Hx]; cbn [filter]; [constructor|].
  destruct (p x); [|exact IH].
  constructor; [exact IH|].
  apply Forall_forall. intros a Ha. apply filter_In in Ha.
  rewrite Forall_forall in Hx. apply Hx, Ha.
Qed.

Lemma filter_swap (p q : A -> bool) (l : list A) :
  filter p (filter q l) = filter q (filter p l).
Proof.
  induction l as [|x l IH]; cbn [filter]; [reflexivity|].
  destruct (p x) eqn:P, (q x) eqn:Q; cbn [filter]; rewrite ?P, ?Q, IH; reflexivity.
Qed.

End StableSort.

Section Dedup.

Lemma existsb_eqb_In (x : string) (l : list string) :
  existsb (String.eqb x) l = true <-> In x l.
Proof.
  rewrite existsb_exists. split.
  - intros [y [Hy E]]. apply String.eqb_eq in E. subst. exact Hy.
  - intros H. exists x. split; [exact H | apply String.eqb_refl].
Qed.

Lemma existsb_eqb_same (x : string) (l l' : list string) :
  (forall y, In y l <-> In y l') ->
  existsb (String.eqb x) l = existsb (String.eqb x) l'.
Proof.
  intros H. apply eq_true_iff_eq. rewrite !existsb_eqb_In. apply H.
Qed.

Lemma dedup_from_same (l : list string) :
  forall seen seen', (forall y, In y seen <-> In y seen') ->
  Spec.dedup_from seen l = Spec.dedup_from seen' l.
Proof.
  induction l as [|x l IH]; intros seen seen' H; cbn [Spec.dedup_from]; [reflexivity|].
  rewrite (existsb_eqb_same x seen seen' H).
  destruct (existsb (String.eqb x) seen').
  - apply IH, H.
  - f_equal. apply IH. intros y. cbn [In]. rewrite H. tauto.
Qed.

(** The loop of [dict.fromkeys] started from the keys [seen]. *)
Lemma fromkeys_fold (l : list string) :
  forall seen,
  fold_left (fun seen k => if existsb (String.eqb k) seen then seen else seen ++ [k]) l seen
  = seen ++ Spec.dedup_from seen l.
Proof.
  induction l as [|x l IH]; intros seen; cbn [fold_left Spec.dedup_from].
  - rewrite app_nil_r. reflexivity.
  - destruct (existsb (String.eqb x) seen) eqn:E.
    + apply IH.
    + rewrite IH, <- app_assoc. cbn [app]. do 2 f_equal.
      apply dedup_from_same. intros y. rewrite in_app_iff. cbn [In]. tauto.
Qed.

Lemma fromkeys_dedup (l : list string) : Py.fromkeys l = Spec.dedup l.
Proof. unfold Py.fromkeys, Spec.dedup. rewrite fromkeys_fold. reflexivity. Qed.

Lemma dedup_from_fresh (l : list string) :
  forall seen x, In x (Spec.dedup_from seen l) -> ~ In x seen.
Proof.
  induction l as [|y l IH]; intros seen x Hx; cbn [Spec.dedup_from] in Hx; [destruct Hx|].
  destruct (existsb (String.eqb y) seen) eqn:E.
  - apply IH, Hx.
  - destruct Hx as [<-|Hx].
    + intros Hin. apply existsb_eqb_In in Hin. congruence.
    + apply IH in Hx. intros Hin. apply Hx. right. exact Hin.
Qed.

Lemma dedup_from_NoDup (l : list string) :
  forall seen, NoDup (Spec.dedup_from seen l).
Proof.
  induction l as [|y l IH]; intros seen; cbn [Spec.dedup_from]; [constructor|].
  destruct (existsb (String.eqb y) seen); [apply IH|].
  constructor; [|apply IH].
  intros Hin. apply dedup_from_fresh in Hin. apply Hin. left. reflexivity.
Qed.

Lemma firstn_NoDup (n : nat) (l : list string) : NoDup l -> NoDup (firstn n l).
Proof.
  revert l. induction n as [|n IH]; intros l Hl; [constructor|].
  destruct l as [|x l]; cbn [firstn]; [constructor|].
  inversion Hl as [|? ? Hx Hl']; subst.
  constructor; [|apply IH, Hl'].
  intros Hin. apply Hx. revert Hin. generalize n. clear.
  induction l as [|y l IH]; intros n H; destruct n; cbn [firstn] in H; try destruct H.
  - left. assumption.
  - right. eapply IH. eassumption.
Qed.

End Dedup.

(** ** Worked examples

    The values Python prints for the same expressions. *)

Example float_sums :
  0 + 0.4 + 0.3 = 0.7 /\ 0 + 0.4 + 0.3 + 0.3 = 1 /\ 0 + 0.3 + 0.3 = 0.6
  /\ 0.3 + 0.2 = 0.5 /\ 0.4 + 0.2 = 0.6000000000000001 /\ 0.7 + 0.2 = 0.8999999999999999
  /\ 1 - 0.3 = 0.7.
Proof. repeat split. Qed.

Example format_fixed_examples :
  map (Py.format_fixed 1) [18.0; 0.25; 0.35; -0.04; 9.96] = ["18.0"; "0.2"; "0.3"; "-0.0"; "10.0"]
  /\ map (Py.format_fixed 0) [85; 82.5; 0.5; 1.5] = ["85"; "82"; "0"; "2"].
Proof. split; reflexivity. Qed.

Example title_examples :
  Py.title "fungal_diseases" = "Fungal_Diseases" /\ Py.lower "UnKnown" = "unknown".
Proof. split; reflexivity. Qed.

Example sorted_desc_is_stable :
  Py.sorted_desc snd [("a", 0.3); ("b", 0.7); ("c", 0.3); ("d", 0.7)]
  = [("b", 0.7); ("d", 0.7); ("a", 0.3); ("c", 0.3)].
Proof. reflexivity. Qed.

Example hot_dry_scenario_scores :
  PestRiskEngine._calculate_individual_pest_risks (mkWeatherData 26.0 45.0 0.0 0)
  = [ ("aphids", 0.3); ("fungal_diseases", 0.3); ("spider_mites", 0.3); ("thrips", 1)
    ; ("whiteflies", 0.7) ].
Proof. reflexivity. Qed.

Example summary_of_cool_wet_reading :
  PestRiskEngine._generate_weather_summary (mkWeatherData 18.0 85.0 15.0 0)
  = "Current conditions: cool (18.0Â°C), very humid (85%), with significant rainfall (15.0mm)".
Proof. reflexivity. Qed.

(** ** The scorer *)

Ltac split_atoms :=
  repeat match goal with
    | |- context [PrimFloat.ltb ?a ?b] =>
        first [is_var a | is_var b]; destruct (PrimFloat.ltb a b)
    | |- context [PrimFloat.leb ?a ?b] =>
        first [is_var a | is_var b]; destruct (PrimFloat.leb a b)
    end.

Lemma set_five (a f m t w : float) :
  Py.set (Py.set (Py.set (Py.set (Py.set [] "aphids" a) "fungal_diseases" f)
    "spider_mites" m) "thrips" t) "whiteflies" w
  = [ ("aphids", a); ("fungal_diseases", f); ("spider_mites", m); ("thrips", t)
    ; ("whiteflies", w) ].
Proof. reflexivity. Qed.

(** The five entries of the score dictionary, in insertion order. *)
Lemma scores_shape (reading : WeatherData) :
  exists a f m t w,
    PestRiskEngine._calculate_individual_pest_risks reading
    = [ ("aphids", a); ("fungal_diseases", f); ("spider_mites", m); ("thrips", t)
      ; ("whiteflies", w) ].
Proof.
  unfold PestRiskEngine._calculate_individual_pest_risks. cbv zeta.
  rewrite set_five. do 5 eexists. reflexivity.
Qed.

(** The mapping the scorer returns lists the categories in their fixed
    declaration order. *)
Lemma scores_keys (reading : WeatherData) :
  Py.keys (PestRiskEngine._calculate_individual_pest_risks reading)
  = ["aphids"; "fungal_diseases"; "spider_mites"; "thrips"; "whiteflies"].
Proof.
  destruct (scores_shape reading) as (a & f & m & t & w & E). rewrite E. reflexivity.
Qed.

(** Every score is one of six floats. *)
Lemma scores_are_score_values (reading : WeatherData) :
  Forall (fun item => In (snd item) score_values)
    (PestRiskEngine._calculate_individual_pest_risks reading).
Proof.
  destruct reading as [t h r ts].
  unfold PestRiskEngine._calculate_individual_pest_risks. cbv zeta.
  rewrite set_five. cbn [temperature humidity rainfall].
  repeat (apply Forall_cons; [cbn [snd]; split_atoms; vm_compute; tauto|]).
  apply Forall_nil.
Qed.

(** No score is NaN. *)
Lemma scores_not_nan (reading : WeatherData) :
  Forall (fun item => is_nan (snd item) = false)
    (PestRiskEngine._calculate_individual_pest_risks reading).
Proof.
  eapply Forall_impl; [|apply scores_are_score_values].
  intros item. unfold score_values. cbn [In].
  intros H. repeat (destruct H as [<-|H]; [reflexivity|]). destruct H.
Qed.

(** C1. For every weather reading, the score of each of the five pest
    categories is the sum of the weights of the satisfied conditions of the
    rule table, clamped to [[0,1]]: both as the floating-point sum taken in
    table order and as the binary64 value nearest to the exact sum.  Hence
    every score lies in [[0,1]], whatever the reading (NaN and infinities
    included). *)
Theorem scores_follow_rule_table (reading : WeatherData) :
  PestRiskEngine._calculate_individual_pest_risks reading
  = map (fun rule => (fst rule, Spec.float_score (snd rule) reading)) Spec.rule_table
  /\ PestRiskEngine._calculate_individual_pest_risks reading
     = map (fun rule => (fst rule, Spec.nearest (Spec.exact_score (snd rule) reading)))
         Spec.rule_table
  /\ Forall (fun item => (0 <=? snd item) = true /\ (snd item <=? 1) = true)
       (PestRiskEngine._calculate_individual_pest_risks reading).
Proof.
  destruct reading as [t h r ts].
  unfold PestRiskEngine._calculate_individual_pest_risks. cbv zeta.
  rewrite set_five. cbn [temperature humidity rainfall].
  unfold Spec.rule_table. cbn [map fst snd].
  unfold Spec.float_score, Spec.exact_score, Spec.float_sum, Spec.satisfied_weight.
  cbn [fold_left Spec.holds Spec.weight temperature humidity rainfall].
  unfold Spec.within, Spec.above, Spec.below.
  split; [|split].
  - repeat (apply f_equal2; [apply f_equal; split_atoms; vm_compute; reflexivity|]).
    reflexivity.
  - repeat (apply f_equal2; [apply f_equal; split_atoms; vm_compute; reflexivity|]).
    reflexivity.
  - repeat (apply Forall_cons; [cbn [snd]; split_atoms; vm_compute; split; reflexivity|]).
    apply Forall_nil.
Qed.

(** ** The aggregator *)

Section Aggregator.
Import PestRiskEngine.

Lemma escalated_max_risk_some (pest_risks : Py.dict float) (weather_data : WeatherData) :
  pest_risks <> [] -> exists max_risk, escalated_max_risk pest_risks weather_data = Some max_risk.
Proof.
  intros Hne. unfold escalated_max_risk.
  destruct pest_risks as [|item rest]; [congruence|]. cbn [Py.values map Py.max].
  destruct (temp_extreme weather_data || humidity_extreme weather_data
            || rainfall_extreme weather_data); eexists; reflexivity.
Qed.

Lemma extreme_count_flags (weather_data : WeatherData) :
  temp_extreme weather_data || humidity_extreme weather_data || rainfall_extreme weather_data
  = negb (Nat.eqb (Spec.extreme_count weather_data) 0).
Proof.
  unfold temp_extreme, humidity_extreme, rainfall_extreme, Spec.extreme_count,
    Spec.extreme_conditions.
  destruct (35 <? temperature weather_data), (temperature weather_data <? 5),
    (90 <? humidity weather_data), (humidity weather_data <? 20),
    (25 <? rainfall weather_data); reflexivity.
Qed.

End Aggregator.

(** C2. For every score mapping and reading, the verdict follows from the
    maximum score after escalation by exact boundaries, in priority order:
    at least 0.7 gives High with confidence [min(max, 0.95)]; otherwise at
    least 0.4 gives Medium with confidence [max * 0.8]; otherwise Low with
    confidence [1 - max].  In particular 0.7 gives High, 0.6999 Medium,
    0.4 Medium and 0.3999 Low. *)
Theorem level_boundaries (pest_risks : Py.dict float) (weather_data : WeatherData)
    (max_risk : float) :
  PestRiskEngine.escalated_max_risk pest_risks weather_data = Some max_risk ->
  exists verdict,
    PestRiskEngine._determine_overall_risk pest_risks weather_data = Some verdict
    /\ ((0.7 <=? max_risk) = true ->
        level verdict = "High" /\ overall_confidence verdict = Py.min max_risk 0.95)
    /\ ((0.7 <=? max_risk) = false -> (0.4 <=? max_risk) = true ->
        level verdict = "Medium" /\ overall_confidence verdict = max_risk * 0.8)
    /\ ((0.7 <=? max_risk) = false -> (0.4 <=? max_risk) = false ->
        level verdict = "Low" /\ overall_confidence verdict = 1 - max_risk)
    /\ (max_risk = 0.7 -> level verdict = "High")
    /\ (max_risk = 0.6999 -> level verdict = "Medium")
    /\ (max_risk = 0.4 -> level verdict = "Medium")
    /\ (max_risk = 0.3999 -> level verdict = "Low").
Proof.
  intros Hmax. unfold PestRiskEngine._determine_overall_risk. rewrite Hmax. cbn [option_map].
  eexists. split; [reflexivity|].
  unfold PestRiskEngine.risk_band.
  repeat split; try (intros ->; reflexivity);
    destruct (0.7 <=? max_risk), (0.4 <=? max_risk); intros; try discriminate; reflexivity.
Qed.

Lemma level_boundaries_witness :
  exists verdict,
    PestRiskEngine._determine_overall_risk [("aphids", 0.7)] (mkWeatherData 22 55 2 0)
    = Some verdict
    /\ ((0.7 <=? 0.7) = true ->
        level verdict = "High" /\ overall_confidence verdict = Py.min 0.7 0.95)
    /\ ((0.7 <=? 0.7) = false -> (0.4 <=? 0.7) = true ->
        level verdict = "Medium" /\ overall_confidence verdict = 0.7 * 0.8)
    /\ ((0.7 <=? 0.7) = false -> (0.4 <=? 0.7) = false ->
        level verdict = "Low" /\ overall_confidence verdict = 1 - 0.7)
    /\ (0.7 = 0.7 -> level verdict = "High")
    /\ (0.7 = 0.6999 -> level verdict = "Medium")
    /\ (0.7 = 0.4 -> level verdict = "Medium")
    /\ (0.7 = 0.3999 -> level verdict = "Low").
Proof.
  apply (level_boundaries [("aphids", 0.7)] (mkWeatherData 22 55 2 0) 0.7).
  reflexivity.
Defined.

(** C3. For every score mapping and reading, when at least one of the five
    extreme-weather conditions holds, [0.2] is added to the maximum score
    exactly once and the result is capped at [1.0], however many of the
    conditions hold together; when none holds the maximum is unchanged.  The
    escalated value never exceeds [1.0], and the verdict is the band of that
    value. *)
Theorem escalation_applies_once (pest_risks : Py.dict float) (weather_data : WeatherData)
    (max_score : float) :
  Py.max (Py.values pest_risks) = Some max_score ->
  (Spec.extreme_count weather_data = 0%nat ->
   PestRiskEngine.escalated_max_risk pest_risks weather_data = Some max_score)
  /\ (forall n, Spec.extreme_count weather_data = S n ->
      PestRiskEngine.escalated_max_risk pest_risks weather_data
      = Some (Py.min (max_score + 0.2) 1.0))
  /\ (1.0 <? Py.min (max_score + 0.2) 1.0) = false
  /\ PestRiskEngine._determine_overall_risk pest_risks weather_data
     = Some (PestRiskEngine.risk_band
               (match Spec.extreme_count weather_data with
                | O => max_score
                | S _ => Py.min (max_score + 0.2) 1.0
                end)).
Proof.
  intros Hmax.
  assert (H : PestRiskEngine.escalated_max_risk pest_risks weather_data
              = Some (match Spec.extreme_count weather_data with
                      | O => max_score
                      | S _ => Py.min (max_score + 0.2) 1.0
                      end)).
  { unfold PestRiskEngine.escalated_max_risk. rewrite Hmax, extreme_count_flags.
    destruct (Spec.extreme_count weather_data); reflexivity. }
  split; [|split; [|split]].
  - intros E. rewrite H, E. reflexivity.
  - intros n E. rewrite H, E. reflexivity.
  - unfold Py.min. destruct (1.0 <? max_score + 0.2) eqn:E; [reflexivity | exact E].
  - unfold PestRiskEngine._determine_overall_risk. rewrite H. reflexivity.
Qed.

(** Three extremes at once (40 degrees, 95 percent, 30 mm) on a maximum of
    0.3: the verdict is computed from 0.5, not from 0.9. *)
Lemma escalation_applies_once_witness :
  (Spec.extreme_count (mkWeatherData 40 95 30 0) = 0%nat ->
   PestRiskEngine.escalated_max_risk [("aphids", 0.3)] (mkWeatherData 40 95 30 0) = Some 0.3)
  /\ (forall n, Spec.extreme_count (mkWeatherData 40 95 30 0) = S n ->
      PestRiskEngine.escalated_max_risk [("aphids", 0.3)] (mkWeatherData 40 95 30 0)
      = Some (Py.min (0.3 + 0.2) 1.0))
  /\ (1.0 <? Py.min (0.3 + 0.2) 1.0) = false
  /\ PestRiskEngine._determine_overall_risk [("aphids", 0.3)] (mkWeatherData 40 95 30 0)
     = Some (PestRiskEngine.risk_band
               (match Spec.extreme_count (mkWeatherData 40 95 30 0) with
                | O => 0.3
                | S _ => Py.min (0.3 + 0.2) 1.0
                end)).
Proof.
  apply (escalation_applies_once [("aphids", 0.3)] (mkWeatherData 40 95 30 0) 0.3).
  reflexivity.
Defined.

(** ** Primary threats and recommendations *)

Section Recommendations.
Import PestRiskEngine.

Lemma recommend_for_fold (items : list (string * float)) :
  forall recommendations,
  fold_left recommend_for items recommendations
  = recommendations
    ++ flat_map (fun item => pest_advice (fst item))
         (filter (fun item => 0.6 <? snd item) items).
Proof.
  induction items as [|[pest risk] items IH]; intros recommendations;
    cbn [fold_left filter flat_map snd].
  - rewrite app_nil_r. reflexivity.
  - rewrite IH. unfold recommend_for. destruct (0.6 <? risk); cbn [flat_map fst].
    + rewrite <- app_assoc. reflexivity.
    + reflexivity.
Qed.

End Recommendations.

(** C5. For every score mapping, the primary threats are the display names
    of the first three items of a list [significant] that holds exactly the
    categories whose score is strictly greater than 0.3, in descending order
    of score, categories of equal score standing in the order of the mapping
    (their declaration order); so there are at most three of them. *)
Theorem primary_threats_ranked (pest_risks : Py.dict float) :
  Forall (fun item => is_nan (snd item) = false) pest_risks ->
  exists significant : list (string * float),
    Permutation significant (filter (fun item => 0.3 <? snd item) pest_risks)
    /\ descending significant
    /\ (forall v,
         filter (tied_at snd v) significant
         = filter (tied_at snd v) (filter (fun item => 0.3 <? snd item) pest_risks))
    /\ PestRiskEngine._identify_primary_threats pest_risks
       = map (fun item => PestRiskEngine.display_name (fst item)) (firstn 3 significant)
    /\ Nat.le (List.length (PestRiskEngine._identify_primary_threats pest_risks)) 3
    /\ map PestRiskEngine.display_name
         ["aphids"; "fungal_diseases"; "spider_mites"; "thrips"; "whiteflies"]
       = ["Aphid Infestation"; "Fungal Diseases"; "Spider Mite Damage"; "Thrips Damage";
          "Whitefly Infestation"]
    /\ (forall reading,
         Py.keys (PestRiskEngine._calculate_individual_pest_risks reading)
         = ["aphids"; "fungal_diseases"; "spider_mites"; "thrips"; "whiteflies"]).
Proof.
  intros Hnan.
  exists (filter (fun item => 0.3 <? snd item) (Py.sorted_desc snd pest_risks)).
  repeat split.
  - apply filter_perm, sorted_desc_perm.
  - apply filter_sorted, sorted_desc_sorted. exact Hnan.
  - intros v. rewrite filter_swap, sorted_desc_tied, filter_swap. reflexivity.
  - unfold PestRiskEngine._identify_primary_threats, Py.items.
    rewrite firstn_map, map_map. reflexivity.
  - unfold PestRiskEngine._identify_primary_threats.
    rewrite length_map. apply firstn_le_length.
Qed.

Lemma primary_threats_ranked_witness :
  exists significant : list (string * float),
    Permutation significant
      (filter (fun item => 0.3 <? snd item)
         [("aphids", 0.7); ("fungal_diseases", 0.7); ("spider_mites", 0); ("thrips", 1);
          ("whiteflies", 0.3)])
    /\ descending significant
    /\ (forall v,
         filter (tied_at snd v) significant
         = filter (tied_at snd v)
             (filter (fun item => 0.3 <? snd item)
                [("aphids", 0.7); ("fungal_diseases", 0.7); ("spider_mites", 0);
                 ("thrips", 1); ("whiteflies", 0.3)]))
    /\ PestRiskEngine._identify_primary_threats
         [("aphids", 0.7); ("fungal_diseases", 0.7); ("spider_mites", 0); ("thrips", 1);
          ("whiteflies", 0.3)]
       = map (fun item => PestRiskEngine.display_name (fst item)) (firstn 3 significant)
    /\ Nat.le
         (List.length
            (PestRiskEngine._identify_primary_threats
               [("aphids", 0.7); ("fungal_diseases", 0.7); ("spider_mites", 0);
                ("thrips", 1); ("whiteflies", 0.3)])) 3
    /\ map PestRiskEngine.display_name
         ["aphids"; "fungal_diseases"; "spider_mites"; "thrips"; "whiteflies"]
       = ["Aphid Infestation"; "Fungal Diseases"; "Spider Mite Damage"; "Thrips Damage";
          "Whitefly Infestation"]
    /\ (forall reading,
         Py.keys (PestRiskEngine._calculate_individual_pest_risks reading)
         = ["aphids"; "fungal_diseases"; "spider_mites"; "thrips"; "whiteflies"]).
Proof.
  apply (primary_threats_ranked
           [("aphids", 0.7); ("fungal_diseases", 0.7); ("spider_mites", 0); ("thrips", 1);
            ("whiteflies", 0.3)]).
  repeat constructor.
Defined.

(** C6. For every score mapping and reading, the recommendations are: the
    advisory sets (three strings each) of the categories whose score exceeds
    0.6, in the order of the mapping, followed by the advisories for humidity
    above 80, temperature above 32 and rainfall above 15, each on its own;
    duplicates removed keeping the first occurrence; cut to six.  The list
    never has more than six entries and never repeats one. *)
Theorem recommendations_pipeline (pest_risks : Py.dict float) (weather_data : WeatherData) :
  PestRiskEngine._generate_recommendations pest_risks weather_data
  = Spec.recommendation_list pest_risks weather_data
  /\ Nat.le (List.length (PestRiskEngine._generate_recommendations pest_risks weather_data)) 6
  /\ NoDup (PestRiskEngine._generate_recommendations pest_risks weather_data)
  /\ Forall (fun category => List.length (PestRiskEngine.pest_advice category) = 3%nat)
       ["aphids"; "fungal_diseases"; "spider_mites"; "thrips"; "whiteflies"]
  /\ Py.keys (PestRiskEngine._calculate_individual_pest_risks weather_data)
     = ["aphids"; "fungal_diseases"; "spider_mites"; "thrips"; "whiteflies"].
Proof.
  assert (E : PestRiskEngine._generate_recommendations pest_risks weather_data
              = Spec.recommendation_list pest_risks weather_data).
  { unfold PestRiskEngine._generate_recommendations, Spec.recommendation_list,
      Spec.weather_advisories, Py.items.
    cbv zeta. rewrite recommend_for_fold, fromkeys_dedup. cbn [app].
    destruct (80 <? humidity weather_data), (32 <? temperature weather_data),
      (15 <? rainfall weather_data);
      cbn [app]; rewrite <- ?app_assoc, ?app_nil_r; reflexivity. }
  repeat split.
  - exact E.
  - rewrite E. apply firstn_le_length.
  - rewrite E. apply firstn_NoDup, dedup_from_NoDup.
  - repeat constructor.
Qed.

(** ** Whole assessments *)

Section Assessment.
Import PestRiskEngine.

(** [assess_pest_risk] raises on no reading. *)
Lemma assess_pest_risk_total (weather_data : WeatherData) :
  exists assessment, assess_pest_risk weather_data = Some assessment.
Proof.
  unfold assess_pest_risk. cbv zeta.
  destruct (scores_shape weather_data) as (a & f & m & t & w & E). rewrite E.
  destruct (escalated_max_risk_some
              [("aphids", a); ("fungal_diseases", f); ("spider_mites", m); ("thrips", t);
               ("whiteflies", w)] weather_data) as [max_risk Hmax]; [discriminate|].
  unfold _determine_overall_risk. rewrite Hmax. cbn [option_map].
  eexists. reflexivity.
Qed.

Lemma lower_unknown_truthy (label : string) :
  Py.lower label = "unknown" -> Py.truthy (Some label) = true.
Proof. destruct label; [discriminate | reflexivity]. Qed.

Lemma mock_weather_is_scenario (now : Z) (pick : nat) :
  In (_generate_mock_weather now pick) (scenarios now).
Proof.
  unfold _generate_mock_weather. apply nth_In.
  apply Nat.mod_upper_bound. discriminate.
Qed.

Lemma scenarios_assess_well (now : Z) (weather_data : WeatherData) :
  In weather_data (scenarios now) ->
  exists assessment,
    assess_pest_risk weather_data = Some assessment
    /\ Spec.well_formed assessment = true.
Proof.
  intros Hin. unfold scenarios in Hin. cbn [In] in Hin.
  repeat (destruct Hin as [<-|Hin]; [eexists; split; vm_compute; reflexivity|]).
  destruct Hin.
Qed.

End Assessment.

(** C4, as the code has it.  When the classifier label reads "unknown" in any
    letter case, the assessment returned is the fixed Unknown assessment,
    whatever the weather: level Unknown, confidence 0.0, one fixed threat,
    the four fixed recommendations, an empty detailed analysis, and as
    weather summary the fixed placeholder text
    "No valid assessment (image unrecognized)", which is not the empty
    string. *)
Theorem unknown_label_override (location : string) (api_key : option string)
    (label : string) (outcome : PestRiskEngine.ApiOutcome) (now : Z) (pick : nat) :
  Py.lower label = "unknown" ->
  get_pest_risk_assessment location api_key (Some label) outcome now pick
  = Some Spec.unknown_assessment
  /\ risk_level Spec.unknown_assessment = "Unknown"
  /\ confidence Spec.unknown_assessment = 0.0
  /\ List.length (primary_threats Spec.unknown_assessment) = 1%nat
  /\ List.length (recommendations Spec.unknown_assessment) = 4%nat
  /\ weather_summary Spec.unknown_assessment = "No valid assessment (image unrecognized)"
  /\ detailed_analysis Spec.unknown_assessment = [].
Proof.
  intros Hlabel. split; [|repeat split].
  unfold get_pest_risk_assessment. cbv zeta.
  destruct (assess_pest_risk_total
              (PestRiskEngine.get_weather_data api_key outcome now pick)) as [a Ha].
  rewrite Ha, (lower_unknown_truthy label Hlabel), Hlabel.
  reflexivity.
Qed.

Lemma unknown_label_override_witness :
  get_pest_risk_assessment "Delhi" None (Some "Unknown") PestRiskEngine.Raised 0 4
  = Some Spec.unknown_assessment
  /\ risk_level Spec.unknown_assessment = "Unknown"
  /\ confidence Spec.unknown_assessment = 0.0
  /\ List.length (primary_threats Spec.unknown_assessment) = 1%nat
  /\ List.length (recommendations Spec.unknown_assessment) = 4%nat
  /\ weather_summary Spec.unknown_assessment = "No valid assessment (image unrecognized)"
  /\ detailed_analysis Spec.unknown_assessment = [].
Proof.
  apply (unknown_label_override "Delhi" None "Unknown" PestRiskEngine.Raised 0 4).
  reflexivity.
Defined.

(** The weather summary of the Unknown assessment is not empty. *)
Lemma unknown_summary_not_empty :
  exists assessment,
    get_pest_risk_assessment "Delhi" None (Some "Unknown") PestRiskEngine.Raised 0 4
    = Some assessment
    /\ weather_summary assessment <> "".
Proof.
  eexists. split; [vm_compute; reflexivity | discriminate].
Qed.

(** C8, as the code has it.  For the reading (18.0, 85.0, 15.0) the
    temperature lies outside [[20,30]], so the fungal score is 0.4 + 0.3 = 0.7;
    aphids score 0.7 as well and come first in the mapping; the level is High
    and the primary threats are Aphid Infestation, then Fungal Diseases. *)
Theorem cool_wet_scenario (now : Z) :
  let reading := mkWeatherData 18.0 85.0 15.0 now in
  let scores := PestRiskEngine._calculate_individual_pest_risks reading in
  Py.get scores "fungal_diseases" = Some 0.7
  /\ 0 + 0.4 + 0.3 = 0.7
  /\ Py.get scores "aphids" = Some 0.7
  /\ option_map level (PestRiskEngine._determine_overall_risk scores reading) = Some "High"
  /\ PestRiskEngine._identify_primary_threats scores
     = ["Aphid Infestation"; "Fungal Diseases"].
Proof. repeat split. Qed.

(** On that reading the fungal score is not 1.0 and the first primary threat
    is not Fungal Diseases. *)
Lemma cool_wet_scenario_refuted :
  let reading := mkWeatherData 18.0 85.0 15.0 0 in
  let scores := PestRiskEngine._calculate_individual_pest_risks reading in
  Py.get scores "fungal_diseases" <> Some 1.0
  /\ hd_error (PestRiskEngine._identify_primary_threats scores) <> Some "Fungal Diseases".
Proof.
  split.
  - intros H.
    apply (f_equal (fun o => match o with Some s => s =? 1.0 | None => false end)) in H.
    vm_compute in H. discriminate.
  - intros H. vm_compute in H. discriminate.
Qed.

(** C9. The weather fetch never fails its caller: without an API key, when
    the request raises (transport error, timeout), when the reply is not a
    200, or when its body cannot be decoded, the reading returned is one of
    the five canned scenarios; and the assessment of that reading is a
    well-formed assessment, not an exception. *)
Theorem fetch_failure_falls_back (location : string) (api_key : option string)
    (outcome : PestRiskEngine.ApiOutcome) (now : Z) (pick : nat) :
  Py.truthy api_key = false
  \/ outcome = PestRiskEngine.Raised
  \/ (exists status_code body,
        outcome = PestRiskEngine.Replied status_code body /\ status_code <> 200%Z)
  \/ (exists status_code, outcome = PestRiskEngine.Replied status_code None) ->
  In (PestRiskEngine.get_weather_data api_key outcome now pick) (PestRiskEngine.scenarios now)
  /\ List.length (PestRiskEngine.scenarios now) = 5%nat
  /\ exists assessment,
       PestRiskEngine.assess_pest_risk
         (PestRiskEngine.get_weather_data api_key outcome now pick) = Some assessment
       /\ get_pest_risk_assessment location api_key None outcome now pick = Some assessment
       /\ Spec.well_formed assessment = true.
Proof.
  intros Hfail.
  assert (E : PestRiskEngine.get_weather_data api_key outcome now pick
              = PestRiskEngine._generate_mock_weather now pick).
  { unfold PestRiskEngine.get_weather_data.
    destruct (Py.truthy api_key); [|reflexivity].
    destruct Hfail as [H|[->|[(code & body & -> & Hcode)|(code & ->)]]].
    - discriminate.
    - reflexivity.
    - apply Z.eqb_neq in Hcode. rewrite Hcode. reflexivity.
    - destruct (code =? 200)%Z; reflexivity. }
  split; [rewrite E; apply mock_weather_is_scenario|].
  split; [reflexivity|].
  destruct (scenarios_assess_well now (PestRiskEngine._generate_mock_weather now pick)
              (mock_weather_is_scenario now pick)) as (a & Ha & Hwf).
  exists a. unfold get_pest_risk_assessment. cbv zeta. rewrite E, Ha. cbn [Py.truthy andb].
  repeat split; assumption.
Qed.

Lemma fetch_failure_falls_back_witness :
  In (PestRiskEngine.get_weather_data (Some "key") (PestRiskEngine.Replied 503 None) 0 7)
    (PestRiskEngine.scenarios 0)
  /\ List.length (PestRiskEngine.scenarios 0) = 5%nat
  /\ exists assessment,
       PestRiskEngine.assess_pest_risk
         (PestRiskEngine.get_weather_data (Some "key") (PestRiskEngine.Replied 503 None) 0 7)
       = Some assessment
       /\ get_pest_risk_assessment "Delhi" (Some "key") None
            (PestRiskEngine.Replied 503 None) 0 7 = Some assessment
       /\ Spec.well_formed assessment = true.
Proof.
  apply (fetch_failure_falls_back "Delhi" (Some "key") (PestRiskEngine.Replied 503 None) 0 7).
  right. right. left. exists 503%Z, None. split; [reflexivity | discriminate].
Defined.

(** ** Readings out of range *)

Section Clamping.
Import PestRiskEngine.
Import FloatFacts.

(** What the clamp of the specification does to a value that is not NaN. *)
Lemma clamp_humidity_range (h : float) :
  is_nan h = false ->
  (0 <=? Spec.clamp_humidity h) = true /\ (Spec.clamp_humidity h <=? 100) = true.
Proof.
  intros Hh. unfold Spec.clamp_humidity.
  destruct (h <? 0) eqn:Hlow; [split; reflexivity|].
  destruct (100 <? h) eqn:Hhigh; [split; reflexivity|].
  split; float_order.
Qed.

Lemma clamp_rainfall_range (r : float) :
  is_nan r = false -> (0 <=? Spec.clamp_rainfall r) = true.
Proof.
  intros Hr. unfold Spec.clamp_rainfall.
  destruct (r <? 0) eqn:Hlow; [reflexivity|]. float_order.
Qed.

Lemma humidity_atoms_clamp (h : float) :
  Spec.humidity_atoms (Spec.clamp_humidity h) = Spec.humidity_atoms h.
Proof.
  unfold Spec.clamp_humidity, Spec.humidity_atoms.
  destruct (h <? 0) eqn:Hlow.
  - destruct (ltb_true_not_nan _ _ Hlow) as [Hh _]. settle. reflexivity.
  - destruct (100 <? h) eqn:Hhigh; [|reflexivity].
    destruct (ltb_true_not_nan _ _ Hhigh) as [_ Hh]. settle. reflexivity.
Qed.

Lemma rainfall_atoms_clamp (r : float) :
  Spec.rainfall_atoms (Spec.clamp_rainfall r) = Spec.rainfall_atoms r.
Proof.
  unfold Spec.clamp_rainfall, Spec.rainfall_atoms.
  destruct (r <? 0) eqn:Hlow; [|reflexivity].
  destruct (ltb_true_not_nan _ _ Hlow) as [Hr _]. settle. reflexivity.
Qed.

End Clamping.

(** C7. The engine never fails on a malformed reading (negative rainfall,
    humidity outside [[0,100]]) and scores it as it scores the clamped
    reading, humidity brought into [[0,100]] and rainfall to at least 0: the
    scores are the same, and so are the verdict, the primary threats and the
    recommendations drawn from them.  The engine reaches this without
    rewriting the reading: every threshold it compares humidity and rainfall
    with lies inside the clamped range. *)
Theorem malformed_reading_scored_as_clamped (reading : WeatherData) :
  PestRiskEngine._calculate_individual_pest_risks reading
  = PestRiskEngine._calculate_individual_pest_risks (Spec.clamp_reading reading)
  /\ PestRiskEngine._determine_overall_risk
       (PestRiskEngine._calculate_individual_pest_risks reading) reading
     = PestRiskEngine._determine_overall_risk
         (PestRiskEngine._calculate_individual_pest_risks (Spec.clamp_reading reading))
         (Spec.clamp_reading reading)
  /\ PestRiskEngine._identify_primary_threats
       (PestRiskEngine._calculate_individual_pest_risks reading)
     = PestRiskEngine._identify_primary_threats
         (PestRiskEngine._calculate_individual_pest_risks (Spec.clamp_reading reading))
  /\ PestRiskEngine._generate_recommendations
       (PestRiskEngine._calculate_individual_pest_risks reading) reading
     = PestRiskEngine._generate_recommendations
         (PestRiskEngine._calculate_individual_pest_risks (Spec.clamp_reading reading))
         (Spec.clamp_reading reading)
  /\ exists assessment, PestRiskEngine.assess_pest_risk reading = Some assessment.
Proof.
  assert (Hscores :
    PestRiskEngine._calculate_individual_pest_risks reading
    = PestRiskEngine._calculate_individual_pest_risks (Spec.clamp_reading reading)).
  { destruct reading as [t h r ts].
    pose proof (humidity_atoms_clamp h) as Hh. pose proof (rainfall_atoms_clamp r) as Hr.
    unfold Spec.humidity_atoms in Hh. unfold Spec.rainfall_atoms in Hr.
    injection Hh as Eh1 Eh2 Eh3 Eh4 Eh5 Eh6 _ _ _.
    injection Hr as Er1 Er2 Er3 Er4 Er5 _ _.
    unfold PestRiskEngine._calculate_individual_pest_risks, Spec.clamp_reading.
    cbn [temperature humidity rainfall].
    rewrite Eh1, Eh2, Eh3, Eh4, Eh5, Eh6, Er1, Er2, Er3, Er4, Er5. reflexivity. }
  rewrite <- Hscores.
  split; [reflexivity|]. split; [|split; [reflexivity|split]].
  - destruct reading as [t h r ts].
    pose proof (humidity_atoms_clamp h) as Hh. pose proof (rainfall_atoms_clamp r) as Hr.
    unfold Spec.humidity_atoms in Hh. unfold Spec.rainfall_atoms in Hr.
    injection Hh as _ _ _ _ _ _ Eh7 Eh8 _.
    injection Hr as _ _ _ _ _ Er6 _.
    unfold PestRiskEngine._determine_overall_risk, PestRiskEngine.escalated_max_risk,
      PestRiskEngine.temp_extreme, PestRiskEngine.humidity_extreme,
      PestRiskEngine.rainfall_extreme, Spec.clamp_reading.
    cbn [temperature humidity rainfall].
    rewrite Eh7, Eh8, Er6. reflexivity.
  - destruct reading as [t h r ts].
    pose proof (humidity_atoms_clamp h) as Hh. pose proof (rainfall_atoms_clamp r) as Hr.
    unfold Spec.humidity_atoms in Hh. unfold Spec.rainfall_atoms in Hr.
    injection Hh as _ _ _ _ _ _ _ _ Eh9.
    injection Hr as _ _ _ _ _ _ Er7.
    unfold PestRiskEngine._generate_recommendations, Spec.clamp_reading.
    cbn [temperature humidity rainfall].
    rewrite Eh9, Er7. reflexivity.
  - apply assess_pest_risk_total.
Qed.

(** ** A floor under the maximum score *)

Section Floor.
Import PestRiskEngine.
Import FloatFacts.

Lemma rainfall_covered (r : float) :
  is_nan r = false -> (5 <? r) = false -> (r <? 12) = true.
Proof. intros Hr Hlow. float_order. Qed.

Lemma score_values_not_nan (s : float) : In s score_values -> is_nan s = false.
Proof.
  unfold score_values. cbn [In].
  intros H. repeat (destruct H as [<-|H]; [reflexivity|]). destruct H.
Qed.

(** The fungal score or the whitefly score is at least 0.3. *)
Lemma fungal_or_whitefly (reading : WeatherData) :
  is_nan (rainfall reading) = false ->
  exists item,
    In item (_calculate_individual_pest_risks reading) /\ (0.3 <=? snd item) = true.
Proof.
  destruct reading as [t h r ts]. cbn [rainfall]. intros Hr.
  unfold _calculate_individual_pest_risks. cbv zeta.
  rewrite set_five. cbn [temperature humidity rainfall].
  destruct (5 <? r) eqn:Hlow.
  - eexists. split; [right; left; reflexivity|].
    cbn [snd]. split_atoms; reflexivity.
  - pose proof (rainfall_covered r Hr Hlow) as Hhigh.
    eexists. split; [do 4 right; left; reflexivity|].
    cbn [snd]. rewrite Hhigh. split_atoms; reflexivity.
Qed.

Lemma max_score_floor (reading : WeatherData) :
  is_nan (rainfall reading) = false ->
  exists max_score,
    Py.max (Py.values (_calculate_individual_pest_risks reading)) = Some max_score
    /\ In max_score score_values
    /\ (0.3 <=? max_score) = true.
Proof.
  intros Hr.
  destruct (fungal_or_whitefly reading Hr) as (item & Hin & Hitem).
  pose proof (scores_are_score_values reading) as Hvals.
  destruct (scores_shape reading) as (a & f & m & t & w & E).
  rewrite E in *. cbn [Py.values map snd Py.max].
  assert (Hall : Forall (fun s => In s score_values) [a; f; m; t; w]).
  { rewrite Forall_forall in Hvals. apply Forall_forall. intros s Hs.
    cbn [In] in Hs.
    repeat (destruct Hs as [<-|Hs];
            [match goal with
             | |- In ?s _ => match type of E with
                 | context [(?k, s)] => apply (Hvals (k, s)); cbn [In]; tauto
                 end
             end|]).
    destruct Hs. }
  inversion Hall as [|? ? Ha Hrest]; subst.
  eexists. split; [reflexivity|]. split.
  - rewrite Forall_forall in Hall. apply Hall, max_from_in.
  - apply leb_trans with (snd item); [exact Hitem|].
    apply max_from_upper.
    + apply score_values_not_nan, Ha.
    + eapply Forall_impl; [|exact Hrest]. intros s. apply score_values_not_nan.
    + apply (in_map snd) in Hin. exact Hin.
Qed.

End Floor.

(** C10. For every reading whose rainfall is a number (not NaN; the other
    fields may be anything), the maximum score before escalation is at
    least 0.3, because the rainfall satisfies [rainfall > 5] (fungal
    diseases) or [rainfall < 12] (whiteflies).  Hence, when no extreme
    condition escalates the maximum, the confidence [1 - max] of a Low
    verdict does not exceed 0.7. *)
Theorem low_confidence_at_most_07 (reading : WeatherData) :
  is_nan (rainfall reading) = false ->
  ((5 <? rainfall reading) = true \/ (rainfall reading <? 12) = true)
  /\ exists max_score,
      Py.max (Py.values (PestRiskEngine._calculate_individual_pest_risks reading))
      = Some max_score
      /\ (0.3 <=? max_score) = true
      /\ (Spec.extreme_count reading = 0%nat ->
          forall verdict,
            PestRiskEngine._determine_overall_risk
              (PestRiskEngine._calculate_individual_pest_risks reading) reading
            = Some verdict ->
            level verdict = "Low" ->
            overall_confidence verdict = 1 - max_score
            /\ (overall_confidence verdict <=? 0.7) = true).
Proof.
  intros Hr. split.
  - destruct (5 <? rainfall reading) eqn:Hlow; [left; reflexivity|].
    right. apply rainfall_covered; assumption.
  - destruct (max_score_floor reading Hr) as (max_score & Hmax & Hval & Hfloor).
    exists max_score. split; [exact Hmax|]. split; [exact Hfloor|].
    intros Hcalm verdict Hverdict Hlow.
    unfold PestRiskEngine._determine_overall_risk, PestRiskEngine.escalated_max_risk in Hverdict.
    rewrite Hmax, extreme_count_flags, Hcalm in Hverdict.
    cbn [Nat.eqb negb option_map] in Hverdict.
    injection Hverdict as <-.
    unfold score_values in Hval. cbn [In] in Hval.
    repeat (destruct Hval as [<-|Hval];
            [first [discriminate Hfloor | discriminate Hlow | split; reflexivity]|]).
    destruct Hval.
Qed.

Lemma low_confidence_at_most_07_witness :
  ((5 <? rainfall (mkWeatherData 10 45 11 0)) = true
   \/ (rainfall (mkWeatherData 10 45 11 0) <? 12) = true)
  /\ exists max_score,
      Py.max (Py.values (PestRiskEngine._calculate_individual_pest_risks
                           (mkWeatherData 10 45 11 0)))
      = Some max_score
      /\ (0.3 <=? max_score) = true
      /\ (Spec.extreme_count (mkWeatherData 10 45 11 0) = 0%nat ->
          forall verdict,
            PestRiskEngine._determine_overall_risk
              (PestRiskEngine._calculate_individual_pest_risks (mkWeatherData 10 45 11 0))
              (mkWeatherData 10 45 11 0)
            = Some verdict ->
            level verdict = "Low" ->
            overall_confidence verdict = 1 - max_score
            /\ (overall_confidence verdict <=? 0.7) = true).
Proof.
  apply (low_confidence_at_most_07 (mkWeatherData 10 45 11 0)).
  reflexivity.
Defined.

(** ** Shape of the recommendations *)

Lemma recommendations_agree (pest_risks : Py.dict float) (weather_data : WeatherData) :
  PestRiskEngine._generate_recommendations pest_risks weather_data
  = Spec.recommendation_list pest_risks weather_data.
Proof.
  unfold PestRiskEngine._generate_recommendations, Spec.recommendation_list,
    Spec.weather_advisories, Py.items.
  cbv zeta. rewrite recommend_for_fold, fromkeys_dedup. cbn [app].
  destruct (80 <? humidity weather_data), (32 <? temperature weather_data),
    (15 <? rainfall weather_data);
    cbn [app]; rewrite <- ?app_assoc, ?app_nil_r; reflexivity.
Qed.

Lemma recommendations_shape (pest_risks : Py.dict float) (weather_data : WeatherData) :
  Nat.le (List.length (PestRiskEngine._generate_recommendations pest_risks weather_data)) 6
  /\ NoDup (PestRiskEngine._generate_recommendations pest_risks weather_data).
Proof.
  rewrite recommendations_agree. split.
  - apply firstn_le_length.
  - apply firstn_NoDup, dedup_from_NoDup.
Qed.

(** * Further properties of the engine *)

Section Verdicts.
Import PestRiskEngine.
Import FloatFacts.

(** The maximum of the scores is one of the six score values. *)
Lemma max_score_value (reading : WeatherData) :
  exists max_score,
    Py.max (Py.values (_calculate_individual_pest_risks reading)) = Some max_score
    /\ In max_score score_values.
Proof.
  pose proof (scores_are_score_values reading) as Hvals.
  destruct (scores_shape reading) as (a & f & m & t & w & E).
  rewrite E in *. cbn [Py.values map snd Py.max].
  eexists. split; [reflexivity|].
  assert (Hall : Forall (fun s => In s score_values) [a; f; m; t; w]).
  { repeat (inversion Hvals as [|? ? ? Hvals']; subst; clear Hvals; rename Hvals' into Hvals;
            constructor; [assumption|]).
    constructor. }
  rewrite Forall_forall in Hall. apply Hall, max_from_in.
Qed.

(** The verdict of a reading, from the maximum of its scores and the flag of
    extreme weather. *)
Lemma overall_risk_of_reading (reading : WeatherData) :
  exists max_score,
    Py.max (Py.values (_calculate_individual_pest_risks reading)) = Some max_score
    /\ In max_score score_values
    /\ _determine_overall_risk (_calculate_individual_pest_risks reading) reading
       = Some (risk_band (match Spec.extreme_count reading with
                          | O => max_score
                          | S _ => Py.min (max_score + 0.2) 1.0
                          end)).
Proof.
  destruct (max_score_value reading) as (m & Hmax & Hval).
  exists m. split; [exact Hmax|]. split; [exact Hval|].
  unfold _determine_overall_risk, escalated_max_risk.
  rewrite Hmax, extreme_count_flags.
  destruct (Spec.extreme_count reading); reflexivity.
Qed.

Lemma assess_pest_risk_fields (reading : WeatherData) (overall_risk : OverallRisk) :
  _determine_overall_risk (_calculate_individual_pest_risks reading) reading
  = Some overall_risk ->
  assess_pest_risk reading
  = Some (mkPestRiskAssessment
            (level overall_risk) (color overall_risk) (emoji overall_risk)
            (overall_confidence overall_risk)
            (_identify_primary_threats (_calculate_individual_pest_risks reading))
            (_generate_recommendations (_calculate_individual_pest_risks reading) reading)
            (_generate_weather_summary reading)
            (_generate_detailed_analysis (_calculate_individual_pest_risks reading) reading)).
Proof. intros H. unfold assess_pest_risk. cbv zeta. rewrite H. reflexivity. Qed.

Lemma distinct_NoDup (l : list string) : NoDup l -> Spec.distinct l = true.
Proof.
  induction 1 as [|x l Hx _ IH]; cbn [Spec.distinct]; [reflexivity|].
  rewrite IH, andb_true_r. apply negb_true_iff.
  destruct (existsb (String.eqb x) l) eqn:E; [|reflexivity].
  apply existsb_eqb_In in E. contradiction.
Qed.

Lemma set_three (a b c : string) :
  Py.set (Py.set (Py.set [] "temperature" a) "humidity" b) "rainfall" c
  = [("temperature", a); ("humidity", b); ("rainfall", c)].
Proof. reflexivity. Qed.

Lemma detailed_analysis_keys (pest_risks : Py.dict float) (reading : WeatherData) :
  Py.keys (_generate_detailed_analysis pest_risks reading)
  = ["temperature"; "humidity"; "rainfall"].
Proof.
  unfold _generate_detailed_analysis. cbv zeta.
  destruct (32 <? temperature reading), (temperature reading <? 15),
    (75 <? humidity reading), (humidity reading <? 40),
    (15 <? rainfall reading), (rainfall reading <? 2);
    rewrite set_three; reflexivity.
Qed.

End Verdicts.

(** X1. Whatever the reading (NaN and infinities included),
    [assess_pest_risk] returns an assessment, and that assessment is well
    formed: its level is Low, Medium or High, its confidence lies in
    [[0,1]], it names at most three threats and at most six recommendations,
    no recommendation twice, and its detailed analysis has exactly the keys
    temperature, humidity and rainfall, in that order. *)
Theorem every_assessment_well_formed (reading : WeatherData) :
  exists assessment,
    PestRiskEngine.assess_pest_risk reading = Some assessment
    /\ Spec.well_formed assessment = true.
Proof.
  destruct (overall_risk_of_reading reading) as (m & _ & Hval & Hrisk).
  rewrite (assess_pest_risk_fields reading _ Hrisk).
  eexists. split; [reflexivity|].
  unfold Spec.well_formed.
  cbn [risk_level confidence primary_threats recommendations detailed_analysis].
  rewrite detailed_analysis_keys.
  destruct (list_eq_dec string_dec ["temperature"; "humidity"; "rainfall"]
              ["temperature"; "humidity"; "rainfall"]) as [_|Hne]; [|congruence].
  rewrite andb_true_r.
  destruct (recommendations_shape (PestRiskEngine._calculate_individual_pest_risks reading)
              reading) as (Hlen & Hnodup).
  rewrite (distinct_NoDup _ Hnodup), andb_true_r.
  apply Nat.leb_le in Hlen. rewrite Hlen, andb_true_r.
  assert (Hthreats : (List.length (PestRiskEngine._identify_primary_threats
                        (PestRiskEngine._calculate_individual_pest_risks reading)) <=? 3)%nat
                     = true).
  { apply Nat.leb_le. unfold PestRiskEngine._identify_primary_threats.
    rewrite length_map. apply firstn_le_length. }
  rewrite Hthreats, andb_true_r.
  unfold score_values in Hval. cbn [In] in Hval.
  destruct (Spec.extreme_count reading);
    repeat (destruct Hval as [<-|Hval]; [reflexivity|]); destruct Hval.
Qed.

Section Bands.
Import PestRiskEngine.
Import FloatFacts.

Lemma risk_band_level (max_risk : float) :
  level (risk_band max_risk)
  = if 0.7 <=? max_risk then "High" else if 0.4 <=? max_risk then "Medium" else "Low".
Proof.
  unfold risk_band. destruct (0.7 <=? max_risk), (0.4 <=? max_risk); reflexivity.
Qed.

End Bands.

(** X2. The level is a monotone function of the maximum score it is chosen
    from: a greater maximum never gives a lower level (Low below Medium below
    High). *)
Theorem level_is_monotone (lower higher : float) :
  (lower <=? higher) = true ->
  Nat.le (level_rank (level (PestRiskEngine.risk_band lower)))
         (level_rank (level (PestRiskEngine.risk_band higher))).
Proof.
  intros Hle.
  destruct (FloatFacts.leb_true_not_nan _ _ Hle) as [Hl Hh].
  rewrite !risk_band_level.
  destruct (0.7 <=? lower) eqn:L7, (0.4 <=? lower) eqn:L4,
    (0.7 <=? higher) eqn:H7, (0.4 <=? higher) eqn:H4;
    cbn; unfold Nat.le; try lia; exfalso; FloatFacts.float_order.
Qed.

Lemma level_is_monotone_witness :
  Nat.le (level_rank (level (PestRiskEngine.risk_band 0.3999)))
         (level_rank (level (PestRiskEngine.risk_band 0.4))).
Proof.
  apply (level_is_monotone 0.3999 0.4). reflexivity.
Defined.

(** X3. Whatever the reading, the confidence of the assessment lies in a
    window fixed by its level: from 0.7 to 0.95 for High, from 0.32 to below
    0.5 for Medium, from 0.7 to 1 for Low.  No assessment has a confidence of
    0.5 or more and less than 0.7, and a Medium verdict is always less
    confident than a Low or a High one. *)
Theorem confidence_windows (reading : WeatherData) :
  exists assessment,
    PestRiskEngine.assess_pest_risk reading = Some assessment
    /\ (risk_level assessment = "High" ->
        (0.7 <=? confidence assessment) = true /\ (confidence assessment <=? 0.95) = true)
    /\ (risk_level assessment = "Medium" ->
        (0.32 <=? confidence assessment) = true /\ (confidence assessment <? 0.5) = true)
    /\ (risk_level assessment = "Low" ->
        (0.7 <=? confidence assessment) = true /\ (confidence assessment <=? 1) = true)
    /\ ((0.5 <=? confidence assessment) && (confidence assessment <? 0.7) = false).
Proof.
  destruct (overall_risk_of_reading reading) as (m & _ & Hval & Hrisk).
  rewrite (assess_pest_risk_fields reading _ Hrisk).
  eexists. split; [reflexivity|].
  cbn [risk_level confidence].
  unfold score_values in Hval. cbn [In] in Hval.
  destruct (Spec.extreme_count reading);
    repeat (destruct Hval as [<-|Hval];
            [repeat match goal with
               | |- _ /\ _ => split
               | |- _ = _ -> _ =>
                   let H := fresh "H" in
                   intros H; try (vm_compute in H; discriminate H)
               end;
             reflexivity|]);
    destruct Hval.
Qed.

(** X4. Extreme weather never lowers a verdict: for every reading, the level
    of the assessment is at least the level that the maximum score alone
    gives. *)
Theorem escalation_never_lowers (reading : WeatherData) :
  exists max_score assessment,
    Py.max (Py.values (PestRiskEngine._calculate_individual_pest_risks reading))
    = Some max_score
    /\ PestRiskEngine.assess_pest_risk reading = Some assessment
    /\ Nat.le (level_rank (level (PestRiskEngine.risk_band max_score)))
              (level_rank (risk_level assessment)).
Proof.
  destruct (overall_risk_of_reading reading) as (m & Hmax & Hval & Hrisk).
  rewrite (assess_pest_risk_fields reading _ Hrisk).
  exists m. eexists. split; [exact Hmax|]. split; [reflexivity|].
  cbn [risk_level].
  unfold score_values in Hval. cbn [In] in Hval.
  destruct (Spec.extreme_count reading);
    repeat (destruct Hval as [<-|Hval]; [vm_compute; lia|]); destruct Hval.
Qed.

(** X10. Under extreme weather the verdict is never Low when the rainfall is
    a number: one extreme condition at least, and a rainfall that is not NaN,
    give Medium or High. *)
Theorem extreme_weather_is_never_low (reading : WeatherData) :
  is_nan (rainfall reading) = false ->
  Nat.le 1 (Spec.extreme_count reading) ->
  exists assessment,
    PestRiskEngine.assess_pest_risk reading = Some assessment
    /\ (risk_level assessment = "Medium" \/ risk_level assessment = "High").
Proof.
  intros Hr Hextreme.
  destruct (max_score_floor reading Hr) as (m & Hmax & Hval & Hfloor).
  destruct (overall_risk_of_reading reading) as (m' & Hmax' & _ & Hrisk).
  rewrite Hmax in Hmax'. injection Hmax' as <-.
  rewrite (assess_pest_risk_fields reading _ Hrisk).
  eexists. split; [reflexivity|].
  cbn [risk_level].
  destruct (Spec.extreme_count reading); [unfold Nat.le in Hextreme; lia|].
  unfold score_values in Hval. cbn [In] in Hval.
  repeat (destruct Hval as [<-|Hval];
          [first [discriminate Hfloor | left; reflexivity | right; reflexivity]|]).
  destruct Hval.
Qed.

Lemma extreme_weather_is_never_low_witness :
  exists assessment,
    PestRiskEngine.assess_pest_risk (mkWeatherData 2 45 11 0) = Some assessment
    /\ (risk_level assessment = "Medium" \/ risk_level assessment = "High").
Proof.
  apply (extreme_weather_is_never_low (mkWeatherData 2 45 11 0)).
  - reflexivity.
  - vm_compute. unfold Nat.le. lia.
Defined.

(** ** The threats and the maximum score *)

Section Threats.
Import PestRiskEngine.
Import FloatFacts FloatOrder.

Lemma fkey_eq_positive (x y : float) :
  is_nan x = false -> is_nan y = false -> fkey x = fkey y -> (0 < fst (fkey x))%Z -> x = y.
Proof.
  intros Hx Hy Hkey Hpos. apply Prim2SF_inj.
  apply not_nan_spec in Hx, Hy. unfold fkey in *.
  destruct (Prim2SF x) as [s1|s1| |s1 m1 e1], (Prim2SF y) as [s2|s2| |s2 m2 e2];
    try congruence; try destruct s1; try destruct s2;
    cbn [sf_key fst] in *; try lia; try discriminate Hkey.
  - reflexivity.
  - injection Hkey as -> ->. reflexivity.
Qed.

Lemma max_is_upper (l : list float) (m : float) :
  Forall not_nan l -> Py.max l = Some m ->
  In m l /\ Forall (fun x => (x <=? m) = true) l.
Proof.
  intros Hl Hmax. destruct l as [|first rest]; [discriminate|].
  cbn [Py.max] in Hmax. injection Hmax as <-.
  inversion Hl as [|? ? Hfirst Hrest]; subst.
  split; [apply max_from_in|].
  apply Forall_forall. intros x Hx. apply max_from_upper; assumption.
Qed.

Lemma sorted_desc_head (l : list (string * float)) :
  l <> [] -> Forall (fun item => not_nan (snd item)) l ->
  exists first rest,
    Py.sorted_desc snd l = first :: rest
    /\ In first l
    /\ Forall (fun item => (snd item <=? snd first) = true) l.
Proof.
  intros Hne Hl.
  pose proof (sorted_desc_perm _ snd l) as Hperm.
  pose proof (sorted_desc_sorted _ snd l Hl) as Hsorted.
  destruct (Py.sorted_desc snd l) as [|first rest].
  - apply Permutation_nil in Hperm. contradiction.
  - exists first, rest. split; [reflexivity|].
    assert (Hin : In first l) by (apply (Permutation_in _ Hperm); left; reflexivity).
    split; [exact Hin|].
    apply StronglySorted_inv in Hsorted. destruct Hsorted as [_ Hrest].
    apply (Permutation_Forall Hperm). constructor.
    + apply leb_refl. rewrite Forall_forall in Hl. apply (Hl first Hin).
    + exact Hrest.
Qed.

Lemma values_not_nan (pest_risks : Py.dict float) :
  Forall (fun item => is_nan (snd item) = false) pest_risks ->
  Forall not_nan (Py.values pest_risks).
Proof.
  intros Hl. unfold Py.values. apply Forall_forall. intros s Hs.
  apply in_map_iff in Hs. destruct Hs as (item & <- & Hitem).
  rewrite Forall_forall in Hl. apply Hl, Hitem.
Qed.

(** When the maximum does not exceed 0.3 there is no threat. *)
Lemma no_threat_below (pest_risks : Py.dict float) (max_score : float) :
  Forall (fun item => is_nan (snd item) = false) pest_risks ->
  Py.max (Py.values pest_risks) = Some max_score ->
  (0.3 <? max_score) = false ->
  _identify_primary_threats pest_risks = [].
Proof.
  intros Hl Hmax Hlow.
  destruct (max_is_upper _ _ (values_not_nan _ Hl) Hmax) as [Hin Hupper].
  assert (Hm : is_nan max_score = false).
  { pose proof (values_not_nan _ Hl) as Hv. rewrite Forall_forall in Hv. apply Hv, Hin. }
  unfold _identify_primary_threats, Py.items. cbv zeta.
  assert (E : filter (fun x => 0.3 <? snd x) (Py.sorted_desc snd pest_risks) = []).
  { destruct (filter (fun x => 0.3 <? snd x) (Py.sorted_desc snd pest_risks))
      as [|item rest] eqn:E; [reflexivity|].
    assert (Hitem : In item (filter (fun x => 0.3 <? snd x) (Py.sorted_desc snd pest_risks)))
      by (rewrite E; left; reflexivity).
    apply filter_In in Hitem. destruct Hitem as [Hitem Hhigh].
    apply (Permutation_in _ (sorted_desc_perm _ snd pest_risks)) in Hitem.
    assert (Hle : (snd item <=? max_score) = true).
    { rewrite Forall_forall in Hupper. apply Hupper. unfold Py.values.
      apply in_map. exact Hitem. }
    assert (Hs : is_nan (snd item) = false)
      by (rewrite Forall_forall in Hl; apply Hl, Hitem).
    remember (snd item) as s. exfalso. float_order. }
  rewrite E. reflexivity.
Qed.

(** When the maximum exceeds 0.3, the first threat is a category that has
    the maximum score. *)
Lemma first_threat_is_top (pest_risks : Py.dict float) (max_score : float) :
  Forall (fun item => is_nan (snd item) = false) pest_risks ->
  Py.max (Py.values pest_risks) = Some max_score ->
  (0.3 <? max_score) = true ->
  exists pest,
    hd_error (_identify_primary_threats pest_risks) = Some (display_name pest)
    /\ In (pest, max_score) pest_risks.
Proof.
  intros Hl Hmax Hhigh.
  destruct (max_is_upper _ _ (values_not_nan _ Hl) Hmax) as [Hin Hupper].
  assert (Hm : is_nan max_score = false).
  { pose proof (values_not_nan _ Hl) as Hv. rewrite Forall_forall in Hv. apply Hv, Hin. }
  unfold _identify_primary_threats, Py.items. cbv zeta.
  assert (Hne : pest_risks <> []) by (intros ->; discriminate Hmax).
  destruct (sorted_desc_head pest_risks Hne Hl) as (first & rest & Hsorted & Hfirst & Hall).
  rewrite Hsorted.
  assert (Hs : is_nan (snd first) = false)
    by (rewrite Forall_forall in Hl; apply Hl, Hfirst).
  assert (Hle : (snd first <=? max_score) = true).
  { rewrite Forall_forall in Hupper. apply Hupper. unfold Py.values.
    apply in_map. exact Hfirst. }
  assert (Hge : (max_score <=? snd first) = true).
  { unfold Py.values in Hin. apply in_map_iff in Hin. destruct Hin as (item & <- & Hitem).
    rewrite Forall_forall in Hall. apply Hall, Hitem. }
  assert (Heq : snd first = max_score).
  { destruct first as [pest s]. cbn [snd] in *.
    apply fkey_eq_positive; trivial.
    - apply leb_true_iff in Hle, Hge; trivial.
      unfold lex_le in *. destruct (fkey s) as [a [b c]], (fkey max_score) as [a' [b' c']].
      cbn [fst snd] in *. assert (a = a' /\ b = b' /\ c = c') as (-> & -> & ->) by lia.
      reflexivity.
    - apply leb_true_iff in Hge; trivial. apply ltb_true_iff in Hhigh; trivial.
      order_lia. }
  destruct first as [pest s]. cbn [snd] in Heq. subst s.
  exists pest. split; [|exact Hfirst].
  cbn [filter snd]. rewrite Hhigh. reflexivity.
Qed.

End Threats.

(** X5. The threats agree with the maximum score that drives the verdict,
    for every score mapping without NaN: when the maximum does not exceed 0.3
    no threat is named; when it does, the first threat named is a category
    whose score is that maximum. *)
Theorem threats_follow_the_maximum (pest_risks : Py.dict float) (max_score : float) :
  Forall (fun item => is_nan (snd item) = false) pest_risks ->
  Py.max (Py.values pest_risks) = Some max_score ->
  ((0.3 <? max_score) = false -> PestRiskEngine._identify_primary_threats pest_risks = [])
  /\ ((0.3 <? max_score) = true ->
      exists pest,
        hd_error (PestRiskEngine._identify_primary_threats pest_risks)
        = Some (PestRiskEngine.display_name pest)
        /\ In (pest, max_score) pest_risks).
Proof.
  intros Hl Hmax. split.
  - apply no_threat_below; assumption.
  - apply first_threat_is_top; assumption.
Qed.

Lemma threats_follow_the_maximum_witness :
  ((0.3 <? 0.7) = false ->
   PestRiskEngine._identify_primary_threats
     [("aphids", 0.3); ("fungal_diseases", 0.7); ("spider_mites", 0.4)] = [])
  /\ ((0.3 <? 0.7) = true ->
      exists pest,
        hd_error (PestRiskEngine._identify_primary_threats
                    [("aphids", 0.3); ("fungal_diseases", 0.7); ("spider_mites", 0.4)])
        = Some (PestRiskEngine.display_name pest)
        /\ In (pest, 0.7) [("aphids", 0.3); ("fungal_diseases", 0.7); ("spider_mites", 0.4)]).
Proof.
  apply (threats_follow_the_maximum
           [("aphids", 0.3); ("fungal_diseases", 0.7); ("spider_mites", 0.4)] 0.7).
  - repeat constructor.
  - reflexivity.
Defined.

(** X6. A High verdict always names a threat: for every reading, if the
    level of the assessment is High then its list of primary threats is not
    empty.  A Medium verdict can come with none: at 2 degrees, 45 percent and
    11 mm no score exceeds 0.3 and the cold alone lifts the verdict. *)
Theorem high_verdict_names_a_threat :
  (forall reading,
     exists assessment,
       PestRiskEngine.assess_pest_risk reading = Some assessment
       /\ (risk_level assessment = "High" ->
           exists threat, hd_error (primary_threats assessment) = Some threat))
  /\ (exists assessment,
        PestRiskEngine.assess_pest_risk (mkWeatherData 2 45 11 0) = Some assessment
        /\ risk_level assessment = "Medium"
        /\ primary_threats assessment = []).
Proof.
  split.
  - intros reading.
    destruct (overall_risk_of_reading reading) as (m & Hmax & Hval & Hrisk).
    rewrite (assess_pest_risk_fields reading _ Hrisk).
    eexists. split; [reflexivity|].
    cbn [risk_level primary_threats]. intros Hhigh.
    assert (Htop : (0.3 <? m) = true).
    { unfold score_values in Hval. cbn [In] in Hval.
      destruct (Spec.extreme_count reading);
        repeat (destruct Hval as [<-|Hval];
                [first [reflexivity | vm_compute in Hhigh; discriminate Hhigh]|]);
        destruct Hval. }
    destruct (first_threat_is_top _ m (scores_not_nan reading) Hmax Htop) as (pest & Hhd & _).
    eexists. exact Hhd.
  - eexists. split; [reflexivity|]. split; reflexivity.
Qed.

(** ** What the recommendations hold *)

Section Advice.
Import PestRiskEngine.
Import FloatFacts.

Lemma in_firstn (n : nat) (l : list string) (x : string) : In x (firstn n l) -> In x l.
Proof.
  revert l. induction n as [|n IH]; intros l H; [destruct H|].
  destruct l as [|y l]; [destruct H|].
  cbn [firstn] in H. destruct H as [<-|H]; [left; reflexivity | right; apply IH, H].
Qed.

Lemma in_dedup_from (l : list string) :
  forall seen x, In x (Spec.dedup_from seen l) -> In x l.
Proof.
  induction l as [|y l IH]; intros seen x H; cbn [Spec.dedup_from] in H; [destruct H|].
  destruct (existsb (String.eqb y) seen).
  - right. eapply IH, H.
  - destruct H as [<-|H]; [left; reflexivity | right; eapply IH, H].
Qed.

(** A weather advisory is never part of the advice of a pest. *)
Lemma weather_advice_is_no_pest_advice (pest advice : string) :
  In advice [humidity_advice; heat_advice; rain_advice] ->
  ~ In advice (pest_advice pest).
Proof.
  intros Hadvice Hin. unfold pest_advice in Hin.
  repeat match type of Hin with
         | In _ (if ?c then _ else _) => destruct c
         end;
    cbn [In] in Hadvice, Hin;
    repeat match goal with
      | H : _ \/ _ |- _ => destruct H
      | H : False |- _ => destruct H
      end;
    subst; discriminate.
Qed.

(** A weather advisory among the recommendations was triggered by the
    weather. *)
Lemma weather_advice_from_weather (pest_risks : Py.dict float) (reading : WeatherData)
    (advice : string) :
  In advice [humidity_advice; heat_advice; rain_advice] ->
  In advice (_generate_recommendations pest_risks reading) ->
  In advice (Spec.weather_advisories reading).
Proof.
  intros Hadvice Hin. rewrite recommendations_agree in Hin.
  unfold Spec.recommendation_list, Spec.dedup in Hin.
  apply in_firstn, in_dedup_from, in_app_or in Hin.
  destruct Hin as [Hin|Hin]; [|exact Hin].
  apply in_flat_map in Hin. destruct Hin as (item & _ & Hin).
  exfalso. exact (weather_advice_is_no_pest_advice _ _ Hadvice Hin).
Qed.

Lemma weather_advisories_triggers (reading : WeatherData) :
  (In humidity_advice (Spec.weather_advisories reading) -> (80 <? humidity reading) = true)
  /\ (In heat_advice (Spec.weather_advisories reading) -> (32 <? temperature reading) = true)
  /\ (In rain_advice (Spec.weather_advisories reading) -> (15 <? rainfall reading) = true).
Proof.
  unfold Spec.weather_advisories.
  destruct (80 <? humidity reading), (32 <? temperature reading), (15 <? rainfall reading);
    cbn [app In]; repeat split; intros H; try reflexivity;
    repeat match goal with
      | H : _ \/ _ |- _ => destruct H
      | H : False |- _ => destruct H
      end;
    discriminate.
Qed.

Lemma detailed_analysis_shape (pest_risks : Py.dict float) (reading : WeatherData) :
  exists t h r,
    _generate_detailed_analysis pest_risks reading
    = [("temperature", t); ("humidity", h); ("rainfall", r)]
    /\ ((32 <? temperature reading) = true ->
        exists rest, t = String.append "High temperature (" rest)
    /\ ((75 <? humidity reading) = true ->
        exists rest, h = String.append "High humidity (" rest)
    /\ ((15 <? rainfall reading) = true ->
        exists rest, r = String.append "Heavy rainfall (" rest).
Proof.
  unfold _generate_detailed_analysis. cbv zeta.
  destruct (32 <? temperature reading), (temperature reading <? 15),
    (75 <? humidity reading), (humidity reading <? 40),
    (15 <? rainfall reading), (rainfall reading <? 2);
    rewrite set_three; do 3 eexists; (split; [reflexivity|]);
    repeat split; intros H; try discriminate H; eexists; reflexivity.
Qed.

End Advice.

(** X7. How many categories score above 0.6 decides what the recommendations
    hold, for every reading.  With none, they are the weather advisories
    alone; with one, its three strings followed by the weather advisories;
    with two or more, the strings of the first two such categories and
    nothing else: the cut at six then drops every weather advisory and every
    further category. *)
Theorem recommendations_by_high_scores (reading : WeatherData) :
  let scores := PestRiskEngine._calculate_individual_pest_risks reading in
  let advice := PestRiskEngine._generate_recommendations scores reading in
  match filter (fun item => 0.6 <? snd item) scores with
  | [] => advice = Spec.weather_advisories reading
  | [item] => advice = PestRiskEngine.pest_advice (fst item) ++ Spec.weather_advisories reading
  | first :: second :: _ =>
      advice = PestRiskEngine.pest_advice (fst first) ++ PestRiskEngine.pest_advice (fst second)
  end.
Proof.
  cbv zeta. rewrite recommendations_agree.
  destruct (scores_shape reading) as (a & f & m & t & w & E). rewrite E. clear E.
  unfold Spec.recommendation_list, Spec.weather_advisories.
  cbn [filter snd].
  destruct (0.6 <? a), (0.6 <? f), (0.6 <? m), (0.6 <? t), (0.6 <? w);
    destruct (80 <? humidity reading), (32 <? temperature reading),
      (15 <? rainfall reading);
    vm_compute; reflexivity.
Qed.

(** X8. A weather advisory among the recommendations is backed by the
    detailed analysis of the same assessment, for every reading: the
    ventilation advisory comes with a humidity entry that reads
    "High humidity", the shade advisory with "High temperature", the drainage
    advisory with "Heavy rainfall". *)
Theorem advisories_backed_by_analysis (reading : WeatherData) :
  exists assessment,
    PestRiskEngine.assess_pest_risk reading = Some assessment
    /\ (In PestRiskEngine.humidity_advice (recommendations assessment) ->
        exists text,
          Py.get (detailed_analysis assessment) "humidity" = Some text
          /\ exists rest, text = String.append "High humidity (" rest)
    /\ (In PestRiskEngine.heat_advice (recommendations assessment) ->
        exists text,
          Py.get (detailed_analysis assessment) "temperature" = Some text
          /\ exists rest, text = String.append "High temperature (" rest)
    /\ (In PestRiskEngine.rain_advice (recommendations assessment) ->
        exists text,
          Py.get (detailed_analysis assessment) "rainfall" = Some text
          /\ exists rest, text = String.append "Heavy rainfall (" rest).
Proof.
  destruct (overall_risk_of_reading reading) as (m & _ & _ & Hrisk).
  rewrite (assess_pest_risk_fields reading _ Hrisk).
  eexists. split; [reflexivity|].
  cbn [recommendations detailed_analysis].
  destruct (detailed_analysis_shape
              (PestRiskEngine._calculate_individual_pest_risks reading) reading)
    as (t & h & r & -> & Ht & Hh & Hr).
  destruct (weather_advisories_triggers reading) as (Th & Tt & Tr).
  repeat split; intros Hin;
    apply weather_advice_from_weather in Hin; try (cbn [In]; tauto).
  - apply Th in Hin. exists h. split; [reflexivity|]. apply Hh.
    destruct reading as [rt rh rr ts]. cbn [humidity] in *.
    destruct (FloatFacts.ltb_true_not_nan _ _ Hin) as [_ Hnan].
    FloatFacts.float_order.
  - apply Tt in Hin. exists t. split; [reflexivity|]. apply Ht, Hin.
  - apply Tr in Hin. exists r. split; [reflexivity|]. apply Hr, Hin.
Qed.

(** X9. Without an API key, which is how [app.py] configures the engine, every
    assessment is High whatever the random draw: each of the five canned
    readings, the ones commented as low and medium risk included, is
    assessed High. *)
Theorem keyless_assessment_is_high (location : string) (api_key : option string)
    (outcome : PestRiskEngine.ApiOutcome) (now : Z) (pick : nat) :
  Py.truthy api_key = false ->
  exists assessment,
    get_pest_risk_assessment location api_key None outcome now pick = Some assessment
    /\ risk_level assessment = "High"
    /\ (0.7 <=? confidence assessment) = true.
Proof.
  intros Hkey. unfold get_pest_risk_assessment, PestRiskEngine.get_weather_data.
  cbv zeta. rewrite Hkey.
  pose proof (mock_weather_is_scenario now pick) as Hin.
  unfold PestRiskEngine.scenarios in Hin. cbn [In] in Hin.
  repeat (destruct Hin as [<-|Hin]; [eexists; split; [vm_compute; reflexivity|split; reflexivity]|]).
  destruct Hin.
Qed.

Lemma keyless_assessment_is_high_witness :
  exists assessment,
    get_pest_risk_assessment "Delhi" None None PestRiskEngine.Raised 0 0 = Some assessment
    /\ risk_level assessment = "High"
    /\ (0.7 <=? confidence assessment) = true.
Proof.
  apply (keyless_assessment_is_high "Delhi" None PestRiskEngine.Raised 0 0). reflexivity.
Defined.

(** * The web layer *)

(** ** File names *)

Section FileNames.
Import App.

Lemma split_last_dot_none (s : string) :
  split_last_dot s = None <-> contains_dot s = false.
Proof.
  induction s as [|c s IH]; cbn [split_last_dot contains_dot]; [tauto|].
  destruct (split_last_dot s) as [[head tail]|].
  - destruct (Ascii.eqb c "."); split; intros H; try discriminate.
    apply IH in H. discriminate.
  - destruct (Ascii.eqb c "."); split; intros H; try discriminate; try reflexivity.
    apply IH. reflexivity.
Qed.

(** Splitting undoes joining a stem and an extension without dot. *)
Lemma split_last_dot_join (stem extension : string) :
  contains_dot extension = false ->
  split_last_dot (String.append stem (String "." extension)) = Some (stem, extension).
Proof.
  intros Hext. apply split_last_dot_none in Hext.
  induction stem as [|c stem IH]; cbn [String.append split_last_dot].
  - rewrite Hext. reflexivity.
  - rewrite IH. reflexivity.
Qed.

(** Joining undoes splitting. *)
Lemma split_last_dot_some (s head tail : string) :
  split_last_dot s = Some (head, tail) ->
  s = String.append head (String "." tail) /\ contains_dot tail = false.
Proof.
  revert head. induction s as [|c s IH]; intros head H; cbn [split_last_dot] in H;
    [discriminate|].
  destruct (split_last_dot s) as [[head' tail']|] eqn:E.
  - injection H as <- <-. destruct (IH head' eq_refl) as [-> Htail].
    split; [reflexivity | exact Htail].
  - destruct (Ascii.eqb c ".") eqn:Ec; [|discriminate].
    injection H as <- <-. apply Ascii.eqb_eq in Ec. subst c.
    split; [reflexivity|]. apply split_last_dot_none, E.
Qed.

Lemma to_lower_dot (c : ascii) : Ascii.eqb (Py.to_lower c) "." = Ascii.eqb c ".".
Proof.
  destruct c as [[] [] [] [] [] [] [] []]; reflexivity.
Qed.

Lemma contains_dot_lower (s : string) : contains_dot (Py.lower s) = contains_dot s.
Proof.
  induction s as [|c s IH]; cbn [Py.lower contains_dot]; [reflexivity|].
  rewrite to_lower_dot, IH. reflexivity.
Qed.

Lemma allowed_extension_has_no_dot (extension : string) :
  In (Py.lower extension) ["jpg"; "jpeg"; "png"] -> contains_dot extension = false.
Proof.
  intros H. rewrite <- contains_dot_lower.
  cbn [In] in H. destruct H as [<-|[<-|[<-|[]]]]; reflexivity.
Qed.

Lemma existsb_eqb_allowed (extension : string) :
  existsb (String.eqb extension) ["jpg"; "jpeg"; "png"] = true
  <-> In extension ["jpg"; "jpeg"; "png"].
Proof. apply existsb_eqb_In. Qed.

End FileNames.

(** X11. [allowed_file] never raises, and it accepts exactly the names made
    of any stem, a dot and an extension that reads jpg, jpeg or png in any
    letter case.  A name without a dot is refused: the subscript of the split
    is guarded by the test for a dot. *)
Theorem allowed_file_accepts (filename : string) :
  (exists answer, App.allowed_file filename = Some answer)
  /\ (App.allowed_file filename = Some true <->
      exists stem extension,
        filename = String.append stem (String.append "." extension)
        /\ In (Py.lower extension) ["jpg"; "jpeg"; "png"])
  /\ (App.contains_dot filename = false -> App.allowed_file filename = Some false).
Proof.
  unfold App.allowed_file, App.rsplit_dot.
  destruct (App.contains_dot filename) eqn:Hdot.
  - destruct (App.split_last_dot filename) as [[head tail]|] eqn:Hsplit.
    + cbn [nth_error]. split; [eexists; reflexivity|]. split; [|discriminate].
      destruct (split_last_dot_some _ _ _ Hsplit) as [-> Htail].
      split.
      * intros H. injection H as H. apply existsb_eqb_allowed in H.
        exists head, tail. split; [reflexivity | exact H].
      * intros (stem & extension & Hname & Hext).
        pose proof (allowed_extension_has_no_dot _ Hext) as Hnodot.
        change (String.append "." extension) with (String "." extension) in Hname.
        rewrite Hname, (split_last_dot_join _ _ Hnodot) in Hsplit.
        injection Hsplit as <- <-.
        f_equal. apply existsb_eqb_allowed, Hext.
    + apply split_last_dot_none in Hsplit. congruence.
  - split; [eexists; reflexivity|]. split; [|reflexivity].
    split; [discriminate|].
    intros (stem & extension & -> & Hext). exfalso.
    change (String.append "." extension) with (String "." extension) in Hdot.
    assert (H : App.split_last_dot (String.append stem (String "." extension)) <> None).
    { rewrite (split_last_dot_join _ _ (allowed_extension_has_no_dot _ Hext)). discriminate. }
    apply H, split_last_dot_none, Hdot.
Qed.

(** ** The handlers *)

Section Handlers.
Import PestRiskEngine.








(** The extension the upload handler appends, for a name it accepts. *)
Lemma accepted_extension (client_name : string) :
  App.allowed_file client_name = Some true ->
  exists extension,
    In extension ["jpg"; "jpeg"; "png"]
    /\ App.contains_dot client_name = true
    /\ (match nth_error (App.rsplit_dot client_name) 1 with
        | Some e => Some (String.append "." (Py.lower e))
        | None => None
        end) = Some (String.append "." extension).
Proof.
  unfold App.allowed_file.
  destruct (App.contains_dot client_name); [|discriminate].
  destruct (nth_error (App.rsplit_dot client_name) 1) as [e|]; [|discriminate].
  intros H. injection H as H.
  exists (Py.lower e). repeat split.
  exact (proj1 (existsb_eqb_In (Py.lower e) ["jpg"; "jpeg"; "png"]) H).
Qed.

End Handlers.

(** The outcome of a POST whose file has an accepted name and was stored. *)
Ltac accept_upload Hallowed :=
  let e := fresh "extension" in
  let He := fresh "Hextension" in
  let Hdot := fresh "Hdot" in
  let Hext := fresh "Hext" in
  destruct (accepted_extension _ Hallowed) as (e & He & Hdot & Hext);
  unfold App.plant_detection; cbv zeta;
  rewrite Hallowed, Hdot, Hext.

Lemma accepted_name_not_empty (client_name : string) :
  App.allowed_file client_name = Some true -> String.eqb client_name "" = false.
Proof. destruct client_name; [discriminate | reflexivity]. Qed.

(** X12. Every file the upload handler stores is named by the server: the
    name is "upload_", the random hexadecimal token, a dot and one of jpg,
    jpeg, png in lower case.  Nothing of the client's file name reaches the
    upload folder but its extension, and a file is stored only for a name
    that [allowed_file] accepts; the default extension for names without a
    dot is never used. *)
Theorem uploads_are_renamed (api_key : option string) (file : option string)
    (env : App.Environment) (name : string) :
  In (App.Saved name) (snd (App.plant_detection api_key (App.Post file) env)) ->
  exists client_name extension,
    file = Some client_name
    /\ App.allowed_file client_name = Some true
    /\ In extension ["jpg"; "jpeg"; "png"]
    /\ name = String.append "upload_"
                (String.append (App.uuid_hex env) (String.append "." extension)).
Proof.
  destruct file as [client_name|]; [|intros []].
  destruct (App.allowed_file client_name) as [[|]|] eqn:Hallowed.
  - intros Hin. exists client_name.
    destruct (accepted_extension _ Hallowed) as (extension & He & Hdot & Hext).
    exists extension. repeat split; try assumption.
    revert Hin. unfold App.plant_detection. cbv zeta.
    rewrite Hallowed, Hdot, Hext, (accepted_name_not_empty _ Hallowed).
    repeat match goal with
           | |- context [match ?x with _ => _ end] => destruct x
           end;
      cbn [snd In]; intros H;
      repeat match type of H with _ \/ _ => destruct H as [H|H] end;
      try contradiction; try discriminate H; injection H as <-; reflexivity.
  - unfold App.plant_detection. cbv zeta. rewrite Hallowed.
    repeat match goal with
           | |- context [match ?x with _ => _ end] => destruct x
           end; intros [].
  - unfold App.plant_detection. cbv zeta. rewrite Hallowed.
    repeat match goal with
           | |- context [match ?x with _ => _ end] => destruct x
           end; intros [].
Qed.

Lemma uploads_are_renamed_witness :
  exists client_name extension,
    Some "Leaf.photo.PNG" = Some client_name
    /\ App.allowed_file client_name = Some true
    /\ In extension ["jpg"; "jpeg"; "png"]
    /\ "upload_3f2a.png"
       = String.append "upload_"
           (String.append (App.uuid_hex App.calm_environment) (String.append "." extension)).
Proof.
  apply (uploads_are_renamed None (Some "Leaf.photo.PNG") App.calm_environment
           "upload_3f2a.png").
  vm_compute. left. reflexivity.
Defined.

(** X13. The upload handler deletes a stored file only when it is smaller
    than 1024 bytes, and then answers 400.  A stored file of 1024 bytes or
    more is never deleted, also when its classification raises and the
    answer is the error page: it stays in the upload folder. *)
Theorem only_small_uploads_are_removed (api_key : option string) (file : option string)
    (env : App.Environment) (name : string) :
  In (App.Removed name) (snd (App.plant_detection api_key (App.Post file) env)) ->
  (exists size, App.file_size env = inr size /\ (size < 1024)%Z)
  /\ App.plant_detection api_key (App.Post file) env
     = (App.Plain "File too small or corrupted. Please upload a valid image." 400,
        [App.Saved name; App.Removed name]).
Proof.
  destruct file as [client_name|]; [|intros []].
  unfold App.plant_detection. cbv zeta.
  repeat match goal with
         | |- context [match ?x with _ => _ end] => destruct x eqn:?
         end;
    cbn [snd In]; intros H;
    repeat match type of H with _ \/ _ => destruct H as [H|H] end;
    try contradiction; try discriminate H.
  injection H as <-. split; [|reflexivity].
  eexists. split; [reflexivity|].
  match goal with E : (_ <? _)%Z = true |- _ => apply Z.ltb_lt in E; lia end.
Qed.

Lemma only_small_uploads_are_removed_witness :
  (exists size, App.file_size App.small_file_environment = inr size /\ (size < 1024)%Z)
  /\ App.plant_detection None (App.Post (Some "leaf.jpg")) App.small_file_environment
     = (App.Plain "File too small or corrupted. Please upload a valid image." 400,
        [App.Saved "upload_3f2a.jpg"; App.Removed "upload_3f2a.jpg"]).
Proof.
  apply (only_small_uploads_are_removed None (Some "leaf.jpg") App.small_file_environment
           "upload_3f2a.jpg").
  vm_compute. right. left. reflexivity.
Defined.



Example low_confidence_note_example :
  App.low_confidence_note 0.35
  = "⚠️ Detection confidence: 35.0%. Consider getting second opinion.".
Proof. reflexivity. Qed.




(** X17. The standalone classifier and the web handler use different
    thresholds, 0.3 and 0.4.  Whenever [predict_image] answers Unknown for
    want of confidence, so does the handler; for a best probability of 0.3 or
    more and below 0.4 they disagree, [predict_image] naming the class that
    the handler replaces by Unknown; in every other case they give the same
    answer. *)
Theorem thresholds_of_the_two_classifiers (max_prob : float) (argmax : nat) :
  ((max_prob <? 0.3) = true ->
   Predict.predict_image max_prob argmax = Some "Unknown"
   /\ App.classify max_prob argmax = Some "Unknown")
  /\ ((max_prob <? 0.3) = false -> (max_prob <? 0.4) = true ->
      Predict.predict_image max_prob argmax = nth_error Predict.classes argmax
      /\ App.classify max_prob argmax = Some "Unknown")
  /\ ((max_prob <? 0.4) = false ->
      Predict.predict_image max_prob argmax = App.classify max_prob argmax).
Proof.
  unfold Predict.predict_image, App.classify, Predict.threshold, App.CONFIDENCE_THRESHOLD.
  split; [|split].
  - intros Hlow. rewrite Hlow.
    destruct (FloatFacts.ltb_true_not_nan _ _ Hlow) as [Hnan _].
    assert (H : (max_prob <? 0.4) = true) by FloatFacts.float_order.
    rewrite H. split; reflexivity.
  - intros H3 H4. rewrite H3, H4. split; reflexivity.
  - intros H4. rewrite H4.
    destruct (max_prob <? 0.3) eqn:H3; [|reflexivity].
    destruct (FloatFacts.ltb_true_not_nan _ _ H3) as [Hnan _].
    exfalso. FloatFacts.float_order.
Qed.
